(** * chalice.cli.factory: a shallow embedding and its verification

    The module under study is [chalice/cli/factory.py]: the bootstrap
    layer of the chalice command line.  It builds a botocore session with
    a chalice user agent, installs a logging filter that hides large
    request bodies, reads and validates [.chalice/config.json], imports
    the user's [app.py] after adjusting [sys.path], and hands the three
    parameter layers to [chalice.config.Config].

    The file is organised as follows.
    - Part I models the fragment of Python the module relies on: values,
      exceptions, the builtin [float], [%s] formatting, [os.path.join].
    - Part II transcribes the functions of [factory.py], then fixes the
      notions and the concrete inputs used in the statements.
    - Part III states and proves the properties.
    - Part IV proves further properties of the same functions: versions
      written as integers, what the filter hides and when it fails, the
      effects of each entry point on [sys.path], logging and the file
      system.

    Three methods of [CLIFactory] are left out: [create_default_deployer],
    [create_app_packager] and [create_log_retriever] only forward their
    arguments to constructors of other modules.

    Strings are sequences of 8-bit characters; where Python looks at
    character classes (digits, white space) the ASCII ones are meant. *)

From Stdlib Require Import ZArith String Ascii List Bool Lia.
From Stdlib Require Import Decimal DecimalString DecimalPos.
From Stdlib Require Import Floats.SpecFloat.
From stdpp Require Import base gmap strings list.

Set Warnings "-register-all,-clear-no-such-hyp".
Local Open Scope string_scope.
Local Open Scope list_scope.
Local Open Scope Z_scope.

(** * Part I: the Python fragment *)

(** ** Values

    Python objects as far as this module handles them.  [PyFloat] is an
    IEEE 754 binary64 value ([spec_float] of the standard library, used
    at precision 53 and maximal exponent 1024).  [PyDict] is a dict with
    string keys, which is what [json.loads] produces for a JSON object;
    [PyObject] is an instance with its attribute dictionary. *)
Inductive PyVal : Type :=
| PyNone
| PyBool (b : bool)
| PyInt (z : Z)
| PyFloat (f : spec_float)
| PyStr (s : string)
| PyList (l : list PyVal)
| PyTuple (l : list PyVal)
| PyDict (d : gmap string PyVal)
| PyObject (cls : string) (attrs : gmap string PyVal).

(** ** Exceptions

    [SyntaxError] stands for the class and its subclasses
    ([IndentationError], [TabError]); the four attributes read by
    [load_chalice_app] are kept.  [OSError] stands for [OSError],
    [IOError] and their subclasses ([FileNotFoundError],
    [PermissionError], ...): the clause [except (OSError, IOError)]
    catches exactly these.  [ValueError] includes its subclasses
    [json.JSONDecodeError] and [UnicodeDecodeError].
    [UnknownConfigFileVersion] keeps the argument of its constructor. *)
Record syntax_error := SyntaxErrorInfo {
  se_class : string;
  se_filename : PyVal;
  se_lineno : PyVal;
  se_text : PyVal;
  se_msg : PyVal
}.

Inductive exn : Type :=
| OSError (msg : string)
| ValueError (msg : string)
| TypeError (msg : string)
| OverflowError (msg : string)
| AttributeError (msg : string)
| IndexError (msg : string)
| KeyError (msg : string)
| ImportError (msg : string)
| SyntaxError (e : syntax_error)
| RuntimeError (msg : string)
| UnknownConfigFileVersion (version : PyVal)
| OtherException (cls : string) (msg : string).

(** The outcome of a Python expression: a value or a raised exception. *)
Inductive result (A : Type) : Type :=
| Ok (a : A)
| Raise (e : exn).
Arguments Ok {A} a.
Arguments Raise {A} e.

Definition rbind {A B} (r : result A) (k : A -> result B) : result B :=
  match r with
  | Ok a => k a
  | Raise e => Raise e
  end.

(** [try: body / except <handles>: handler] *)
Definition try_except {A} (body : result A) (handles : exn -> bool)
    (handler : exn -> result A) : result A :=
  match body with
  | Ok a => Ok a
  | Raise e => if handles e then handler e else Raise e
  end.

Definition is_Ok {A} (r : result A) : bool :=
  match r with Ok _ => true | Raise _ => false end.

(** ** The builtin [float]

    Binary64 helpers first. *)
Definition prec64 : Z := 53.
Definition emax64 : Z := 1024.

(** [x > y] and [x <= y] on floats; both are false when either is NaN. *)
Definition float_gt (x y : spec_float) : bool := SFltb y x.
Definition float_le (x y : spec_float) : bool := SFleb x y.

(** The float nearest to [m * 10 ^ e10] (ties to even), as the correctly
    rounding [strtod] of CPython computes it.  A non-negative exponent
    gives an integer, rounded by [binary_round]; a negative one is a
    quotient of two integers, rounded from its quotient, remainder and
    location as in IEEE division. *)
Definition float_of_decimal (neg : bool) (m : N) (e10 : Z) : spec_float :=
  match m with
  | N0 => S754_zero neg
  | Npos p =>
      if 0 <=? e10 then
        binary_round prec64 emax64 neg (p * Z.to_pos (10 ^ e10)) 0
      else
        let '(q, e, l) :=
          SFdiv_core_binary prec64 emax64 (Zpos p) 0 (10 ^ (- e10)) 0 in
        binary_round_aux prec64 emax64 neg q e l
  end.

(** [float(n)] for an int: the nearest float, [OverflowError] beyond the
    largest finite one. *)
Definition int_overflow : exn :=
  OverflowError "int too large to convert to float".

Definition float_of_int (z : Z) : result spec_float :=
  match binary_normalize prec64 emax64 z 0 false with
  | S754_infinity _ => Raise int_overflow
  | f => Ok f
  end.

(** [float(s)] for a str follows CPython 3: underscores between digits
    are dropped (PEP 515), white space around the literal is stripped,
    and what is left is an optional sign followed by [inf], [infinity] or
    [nan] in any case, or by a decimal literal: digits with an optional
    point, at least one digit, an optional exponent.  Anything else is a
    [ValueError].

    Characters of a numeric literal. *)
Definition char_code (c : ascii) : Z := Z.of_N (N_of_ascii c).

Definition is_digit (c : ascii) : bool :=
  (48 <=? char_code c) && (char_code c <=? 57).

Definition is_space (c : ascii) : bool :=
  let n := char_code c in
  ((9 <=? n) && (n <=? 13)) || (n =? 32).

Definition lower (c : ascii) : ascii :=
  let n := char_code c in
  if (65 <=? n) && (n <=? 90) then ascii_of_N (Z.to_N (n + 32)) else c.

Definition is_underscore (c : ascii) : bool := char_code c =? 95.

(** Underscores may only separate two digits; they are removed before
    parsing.  [prev] is the previous character, if any. *)
Fixpoint strip_underscores (prev : option ascii) (l : list ascii)
    : option (list ascii) :=
  match l with
  | [] =>
      match prev with
      | Some p => if is_underscore p then None else Some []
      | None => Some []
      end
  | c :: r =>
      if is_underscore c then
        match prev with
        | Some p => if is_digit p then strip_underscores (Some c) r else None
        | None => None
        end
      else
        let bad :=
          match prev with
          | Some p => is_underscore p && negb (is_digit c)
          | None => false
          end in
        if bad then None
        else option_map (cons c) (strip_underscores (Some c) r)
  end.

Fixpoint drop_spaces (l : list ascii) : list ascii :=
  match l with
  | c :: r => if is_space c then drop_spaces r else l
  | [] => []
  end.

Definition strip (l : list ascii) : list ascii :=
  rev (drop_spaces (rev (drop_spaces l))).

Fixpoint span_digits (l : list ascii) : list ascii * list ascii :=
  match l with
  | c :: r =>
      if is_digit c then let '(d, t) := span_digits r in (c :: d, t)
      else ([], l)
  | [] => ([], [])
  end.

Definition digits_value (d : list ascii) : N :=
  fold_left (fun acc c => (10 * acc + Z.to_N (char_code c - 48))%N) d 0%N.

Definition parse_sign (l : list ascii) : bool * list ascii :=
  match l with
  | c :: r =>
      if char_code c =? 45 then (true, r)
      else if char_code c =? 43 then (false, r)
      else (false, l)
  | [] => (false, [])
  end.

Definition is_char (n : Z) (c : ascii) : bool := char_code c =? n.

(** [inf], [infinity] and [nan], in any case. *)
Definition parse_inf_or_nan (neg : bool) (l : list ascii) : option spec_float :=
  let w := string_of_list_ascii (map lower l) in
  if String.eqb w "inf" || String.eqb w "infinity" then Some (S754_infinity neg)
  else if String.eqb w "nan" then Some S754_nan
  else None.

(** An optional exponent part, which must end the literal. *)
Definition parse_exponent (l : list ascii) : option Z :=
  match l with
  | [] => Some 0
  | c :: r =>
      if is_char 101 c || is_char 69 c then
        let '(eneg, r1) := parse_sign r in
        match span_digits r1 with
        | ([], _) => None
        | (ed, []) =>
            let e := Z.of_N (digits_value ed) in
            Some (if eneg then - e else e)
        | (_, _ :: _) => None
        end
      else None
  end.

Definition parse_decimal (neg : bool) (l : list ascii) : option spec_float :=
  let '(intd, r1) := span_digits l in
  let '(fracd, r2) :=
    match r1 with
    | c :: t => if is_char 46 c then span_digits t else ([], r1)
    | [] => ([], [])
    end in
  match (intd ++ fracd)%list with
  | [] => None
  | ds =>
      match parse_exponent r2 with
      | Some e =>
          Some (float_of_decimal neg (digits_value ds)
                  (e - Z.of_nat (length fracd)))
      | None => None
      end
  end.

(** [float(s)] for a str: [None] stands for [ValueError]. *)
Definition float_of_string (s : string) : option spec_float :=
  match strip_underscores None (list_ascii_of_string s) with
  | None => None
  | Some l =>
      let '(neg, body) := parse_sign (strip l) in
      match parse_inf_or_nan neg body with
      | Some f => Some f
      | None => parse_decimal neg body
      end
  end.

Definition float_type_error : exn :=
  TypeError "float() argument must be a string or a number".

(** The builtin on any object of the model. *)
Definition py_float (v : PyVal) : result spec_float :=
  match v with
  | PyFloat f => Ok f
  | PyInt z => float_of_int z
  | PyBool b => float_of_int (if b then 1 else 0)
  | PyStr s =>
      match float_of_string s with
      | Some f => Ok f
      | None => Raise (ValueError ("could not convert string to float: " +:+ s))
      end
  | PyNone | PyList _ | PyTuple _ | PyDict _ | PyObject _ _ =>
      Raise float_type_error
  end.

Definition float_two : spec_float := S754_finite false 4503599627370496 (-51).

(** ** Formatting with [%s]

    [str(x)] is written out for [None], bools, ints and strs.  For floats
    (shortest round-trip representation), containers and instances it is
    left to the interpreter: [str_other] of the environment below. *)
Definition py_str (str_other : PyVal -> string) (v : PyVal) : string :=
  match v with
  | PyNone => "None"
  | PyBool b => if b then "True" else "False"
  | PyInt z => NilZero.string_of_int (Z.to_int z)
  | PyStr s => s
  | _ => str_other v
  end.

(** ** Attribute access, indexing, tuples *)

Definition is_not_None (v : PyVal) : bool :=
  match v with PyNone => false | _ => true end.

(** [getattr(v, name)].  Only instances carry the attributes looked up by
    this module ([name] on a botocore operation model, [app] on the
    imported module); no builtin type has either. *)
Definition py_getattr (v : PyVal) (name : string) : result PyVal :=
  match v with
  | PyObject cls attrs =>
      match attrs !! name with
      | Some a => Ok a
      | None =>
          Raise (AttributeError (cls +:+ " object has no attribute " +:+ name))
      end
  | _ => Raise (AttributeError ("object has no attribute " +:+ name))
  end.

(** [s.startswith(prefix)], a method of str only. *)
Definition py_startswith (v : PyVal) (prefix : string) : result bool :=
  match v with
  | PyStr s => Ok (String.prefix prefix s)
  | _ => Raise (AttributeError "object has no attribute startswith")
  end.

(** [v[0]] *)
Definition py_getitem0 (v : PyVal) : result PyVal :=
  match v with
  | PyTuple l | PyList l =>
      match l with
      | a :: _ => Ok a
      | [] => Raise (IndexError "index out of range")
      end
  | PyStr s =>
      match s with
      | String c _ => Ok (PyStr (String c EmptyString))
      | EmptyString => Raise (IndexError "string index out of range")
      end
  | PyDict _ => Raise (KeyError "0")
  | PyNone | PyBool _ | PyInt _ | PyFloat _ | PyObject _ _ =>
      Raise (TypeError "object is not subscriptable")
  end.

(** [v == s] for a str literal [s]. *)
Definition py_eq_str (v : PyVal) (s : string) : bool :=
  match v with
  | PyStr t => String.eqb t s
  | _ => false
  end.

(** [v in [s1, ..., sn]] for str literals. *)
Definition py_in_strs (v : PyVal) (l : list string) : bool :=
  existsb (py_eq_str v) l.

(** [v[:-1] + (x1, ..., xn)]: defined on tuples; on a list or a str the
    concatenation with a tuple is a [TypeError], the other types cannot
    be sliced. *)
Definition py_init_plus_tuple (v : PyVal) (t : list PyVal) : result PyVal :=
  match v with
  | PyTuple l => Ok (PyTuple (removelast l ++ t)%list)
  | PyList _ | PyStr _ => Raise (TypeError "can only concatenate")
  | _ => Raise (TypeError "object is not subscriptable")
  end.

(** ** [os.path.join] (posixpath) *)

Fixpoint ends_with_slash (s : string) : bool :=
  match s with
  | EmptyString => false
  | String c EmptyString => is_char 47 c
  | String _ r => ends_with_slash r
  end.

Definition path_join1 (path b : string) : string :=
  if String.prefix "/" b then b
  else if String.eqb path EmptyString || ends_with_slash path then path +:+ b
  else path +:+ "/" +:+ b.

Definition os_path_join (a : string) (p : list string) : string :=
  fold_left path_join1 p a.

(** ** The environment and the mutable state

    What the module reaches outside itself: constants of the chalice
    package, the botocore session constructor, the file system, the JSON
    decoder and the import machinery.  [import_app path] is
    [importlib.import_module('app')] under the search path [path]. *)
Record Session := {
  session_profile : PyVal;
  user_agent_name : string;
  user_agent_version : string;
  user_agent_extra : string
}.

(** - [str_other]: [str] on floats, containers and instances;
    - [chalice_version]: [chalice.__version__];
    - [botocore_Session profile]: [Session(profile=profile)];
    - [read_file path]: [open(path)] followed by [f.read()];
    - [json_loads]: the JSON decoder;
    - [isdir]: [os.path.isdir];
    - [import_app path]: the import of [app], whose outcome depends on
      the search path; the code of the module is taken not to assign to
      [sys.path]. *)
Record Env := {
  str_other : PyVal -> string;
  chalice_version : string;
  botocore_Session : PyVal -> result Session;
  read_file : string -> result string;
  json_loads : string -> result PyVal;
  isdir : string -> bool;
  import_app : list string -> result PyVal
}.

(** Filter objects installed on loggers; the module defines one class. *)
Inductive log_filter := LargeRequestBodyFilter_object.

(** Effects that leave the process, in the order they happen. *)
Inductive event :=
| EvOpen (path : string)
| EvImport (search_path : list string)
| EvConfig.

(** Process-wide state: [sys.path], the logging configuration, and the
    effects performed so far (oldest first). *)
Record World := {
  sys_path : list string;
  debug_loggers : list string;
  log_filters : list (string * log_filter);
  trace : list event
}.

Definition set_sys_path (p : list string) (w : World) : World :=
  {| sys_path := p; debug_loggers := debug_loggers w;
     log_filters := log_filters w; trace := trace w |}.

Definition emit (e : event) (w : World) : World :=
  {| sys_path := sys_path w; debug_loggers := debug_loggers w;
     log_filters := log_filters w; trace := (trace w ++ [e])%list |}.

(** Stateful computations that may raise.  The state survives a raise. *)
Definition M (A : Type) : Type := World -> result A * World.

Definition ret {A} (a : A) : M A := fun w => (Ok a, w).
Definition raise {A} (e : exn) : M A := fun w => (Raise e, w).
Definition lift {A} (r : result A) : M A := fun w => (r, w).
Definition bind {A B} (c : M A) (k : A -> M B) : M B :=
  fun w => match c w with
           | (Ok a, w') => k a w'
           | (Raise e, w') => (Raise e, w')
           end.
Definition modify (f : World -> World) : M unit := fun w => (Ok tt, f w).
Definition gets {A} (f : World -> A) : M A := fun w => (Ok (f w), w).

Definition try_exceptM {A} (body : M A) (handles : exn -> bool)
    (handler : exn -> M A) : M A :=
  fun w => match body w with
           | (Ok a, w') => (Ok a, w')
           | (Raise e, w') => if handles e then handler e w' else (Raise e, w')
           end.

Notation "x <- c ;; k" := (bind c (fun x => k))
  (at level 20, c at level 99, k at level 200, only parsing).
Notation "x <~ r ;; k" := (rbind r (fun x => k))
  (at level 20, r at level 99, k at level 200, only parsing).

Definition is_OSError (e : exn) : bool :=
  match e with OSError _ => true | _ => false end.
Definition is_ValueError (e : exn) : bool :=
  match e with ValueError _ => true | _ => false end.
Definition is_SyntaxError (e : exn) : bool :=
  match e with SyntaxError _ => true | _ => false end.

(** * Part II: [chalice/cli/factory.py] *)

(** ** Sessions *)

(** ['%s/%s' % (name, version)] on two strs. *)
Definition _add_chalice_user_agent (env : Env) (session : Session) : Session :=
  let suffix :=
    user_agent_name session +:+ "/" +:+ user_agent_version session in
  {| session_profile := session_profile session;
     user_agent_name := "aws-chalice";
     user_agent_version := chalice_version env;
     user_agent_extra := suffix |}.

(** [session.set_debug_logger(name)] configures the logging module only. *)
Definition set_debug_logger (name : string) : M unit :=
  modify (fun w =>
    {| sys_path := sys_path w;
       debug_loggers := (debug_loggers w ++ [name])%list;
       log_filters := log_filters w;
       trace := trace w |}).

Definition _inject_large_request_body_filter : M unit :=
  modify (fun w =>
    {| sys_path := sys_path w;
       debug_loggers := debug_loggers w;
       log_filters :=
         (log_filters w ++ [("botocore.endpoint", LargeRequestBodyFilter_object)])%list;
       trace := trace w |}).

Definition create_botocore_session (env : Env) (profile : PyVal) (debug : bool)
    : M Session :=
  s0 <- lift (botocore_Session env profile);;
  let s := _add_chalice_user_agent env s0 in
  tt_ <- (if debug then
          tt_ <- set_debug_logger EmptyString;;
          _inject_large_request_body_filter
        else ret tt);;
  ret s.

(** ** [UnknownConfigFileVersion]

    The message built by the constructor:
    ["Unknown version '%s' in config.json" % version]. *)
Definition UnknownConfigFileVersion_message (env : Env) (version : PyVal)
    : string :=
  "Unknown version '" +:+ py_str (str_other env) version
    +:+ "' in config.json".

(** ** [LargeRequestBodyFilter]

    A log record: the message, the positional arguments, and every other
    attribute ([name], [levelno], [pathname], ...). *)
Record LogRecord := {
  msg : PyVal;
  args : PyVal;
  record_fields : gmap string PyVal
}.

Definition set_args (a : PyVal) (r : LogRecord) : LogRecord :=
  {| msg := msg r; args := a; record_fields := record_fields r |}.

Definition omitted : string := "(... omitted from logs due to size ...)".

Module LargeRequestBodyFilter.

(** [filter] returns its verdict and the record as the call leaves it.
    When it raises, the record has not been assigned to. *)
Definition filter (record : LogRecord) : result (bool * LogRecord) :=
  starts <~ py_startswith (msg record) "Making request";;
  if starts : bool then
    a0 <~ py_getitem0 (args record);;
    name <~ py_getattr a0 "name";;
    if py_in_strs name ["UpdateFunctionCode"; "CreateFunction"] then
      new_args <~ py_init_plus_tuple (args record) [PyStr omitted];;
      Ok (true, set_args new_args record)
    else Ok (true, record)
  else Ok (true, record).

End LargeRequestBodyFilter.

(** ** [CLIFactory] *)
Record CLIFactory := {
  project_dir : string;
  debug : bool;
  profile : PyVal
}.

Definition CLIFactory_create_botocore_session (env : Env) (self : CLIFactory)
    : M Session :=
  create_botocore_session env (profile self) (debug self).

(** [config.get(key, default)]: a dict method. *)
Definition py_dict_get (config : PyVal) (key : string) (default : PyVal)
    : result PyVal :=
  match config with
  | PyDict d =>
      match d !! key with
      | Some v => Ok v
      | None => Ok default
      end
  | _ => Raise (AttributeError "object has no attribute get")
  end.

Definition _validate_config_from_disk (config : PyVal) : result unit :=
  string_version <~ py_dict_get config "version" (PyStr "1.0");;
  try_except
    (version <~ py_float string_version;;
     if float_gt version float_two
     then Raise (UnknownConfigFileVersion string_version)
     else Ok tt)
    is_ValueError
    (fun _ => Raise (UnknownConfigFileVersion string_version)).

Definition nl : string := String (ascii_of_N 10) EmptyString.
Definition dquote : string := String (ascii_of_N 34) EmptyString.

(** The message of the [RuntimeError] raised for a [SyntaxError]:
    four [%s] fields filled with [e.filename], [e.lineno], [e.text] and
    [e.msg]. *)
Definition syntax_error_message (env : Env) (e : syntax_error) : string :=
  let str := py_str (str_other env) in
  "Unable to import your app.py file:" +:+ nl +:+ nl
  +:+ "File " +:+ dquote +:+ str (se_filename e) +:+ dquote
  +:+ ", line " +:+ str (se_lineno e) +:+ nl
  +:+ "  " +:+ str (se_text e) +:+ nl
  +:+ "SyntaxError: " +:+ str (se_msg e).

Definition import_module_app (env : Env) : M PyVal :=
  path <- gets sys_path;;
  tt_ <- modify (emit (EvImport path));;
  lift (import_app env path).

Definition load_chalice_app (env : Env) (self : CLIFactory) : M PyVal :=
  path <- gets sys_path;;
  tt_ <- (if decide (project_dir self ∈ path) then ret tt
        else modify (set_sys_path (project_dir self :: path)));;
  let vendor_dir := os_path_join (project_dir self) ["vendor"] in
  path <- gets sys_path;;
  tt_ <- (if isdir env vendor_dir && negb (bool_decide (vendor_dir ∈ path))
        then modify (set_sys_path (path ++ [vendor_dir])%list)
        else ret tt);;
  try_exceptM
    (app <- import_module_app env;;
     chalice_app <- lift (py_getattr app "app");;
     ret chalice_app)
    is_SyntaxError
    (fun e =>
       match e with
       | SyntaxError se => raise (RuntimeError (syntax_error_message env se))
       | _ => raise e
       end).

Definition load_project_config (env : Env) (self : CLIFactory) : M PyVal :=
  let config_file :=
    os_path_join (project_dir self) [".chalice"; "config.json"] in
  tt_ <- modify (emit (EvOpen config_file));;
  content <- lift (read_file env config_file);;
  lift (json_loads env content).

(** Modelled from the spec: [chalice.config.Config], defined in
    [chalice/config.py], which is not among the sources at hand.  The
    resolved configuration combines the configuration read from disk, the
    default parameters and the user-provided parameters for one named
    stage; the merge itself belongs to that module.  The record keeps the
    four arguments of the constructor. *)
Record Config := {
  chalice_stage : PyVal;
  user_provided_params : gmap string PyVal;
  config_from_disk : PyVal;
  default_params : gmap string PyVal
}.

Definition Config_init (stage : PyVal) (user disk_ default : _) : M Config :=
  tt_ <- modify (emit EvConfig);;
  ret {| chalice_stage := stage; user_provided_params := user;
         config_from_disk := disk_; default_params := default |}.

Definition config_unreadable : string :=
  "Unable to load the project config file. "
  +:+ "Are you sure this is a chalice project?".

Definition set_if (c : bool) (k : string) (v : PyVal)
    (d : gmap string PyVal) : gmap string PyVal :=
  if c then <[k := v]> d else d.

(** The arguments are passed explicitly: the defaults are
    [DEFAULT_STAGE_NAME] of [chalice.constants] for the stage name and
    [None] for the other two. *)
Definition create_config_obj (env : Env) (self : CLIFactory)
    (chalice_stage_name autogen_policy api_gateway_stage : PyVal) : M Config :=
  let user_provided_params : gmap string PyVal := ∅ in
  let default_params : gmap string PyVal :=
    <["autogen_policy" := PyBool true]>
      (<["project_dir" := PyStr (project_dir self)]> ∅) in
  config_from_disk <-
    try_exceptM (load_project_config env self) is_OSError
      (fun _ => raise (RuntimeError config_unreadable));;
  tt_ <- lift (_validate_config_from_disk config_from_disk);;
  app_obj <- load_chalice_app env self;;
  let user_provided_params := <["chalice_app" := app_obj]> user_provided_params in
  let user_provided_params :=
    set_if (is_not_None autogen_policy) "autogen_policy" autogen_policy
      user_provided_params in
  let user_provided_params :=
    set_if (is_not_None (profile self)) "profile" (profile self)
      user_provided_params in
  let user_provided_params :=
    set_if (is_not_None api_gateway_stage) "api_gateway_stage"
      api_gateway_stage user_provided_params in
  Config_init chalice_stage_name user_provided_params config_from_disk
    default_params.

(** * Part II, continued: notions used in the statements *)

(** The two paths the factory derives from the project directory. *)
Definition vendor_dir (self : CLIFactory) : string :=
  os_path_join (project_dir self) ["vendor"].

Definition config_path (self : CLIFactory) : string :=
  os_path_join (project_dir self) [".chalice"; "config.json"].

(** The search path [load_chalice_app] leaves, in closed form: the
    project directory in front unless it was there, the entries found,
    the vendor directory at the end if it is a directory and was not
    there. *)
Definition adjusted_path (env : Env) (self : CLIFactory)
    (path : list string) : list string :=
  (if decide (project_dir self ∈ path) then [] else [project_dir self])
  ++ path
  ++ (if isdir env (vendor_dir self)
         && negb (bool_decide (vendor_dir self ∈ path))
      then [vendor_dir self] else []).

(** The world after two calls of [load_chalice_app]. *)
Definition load_twice (env : Env) (self : CLIFactory) (w : World) : World :=
  snd (load_chalice_app env self (snd (load_chalice_app env self w))).

(** [a] occurs in [b]. *)
Definition occurs_in (a b : string) : Prop :=
  exists pre post, b = pre +:+ a +:+ post.

(** The operations whose request body is the deployment package: the
    list literal in [LargeRequestBodyFilter.filter]. *)
Definition lambda_upload_names : list string :=
  ["UpdateFunctionCode"; "CreateFunction"].


(** The characters of a decimal numeral, and the sign [str] puts before
    a negative int. *)
Definition minus_sign : ascii := ascii_of_N 45.

Definition uint_chars (u : Decimal.uint) : list ascii :=
  list_ascii_of_string (NilEmpty.string_of_uint u).

(** ** Concrete inputs

    The environments, factories, worlds and log records at which the
    properties below are instantiated. *)

(** An imported [app.py]: a module object with an [app] attribute. *)
Definition app_module : PyVal :=
  PyObject "module" {["app" := PyObject "Chalice" ∅]}.

(** An environment whose file, decoder and import have fixed outcomes. *)
Definition make_env (file : result string) (json : result PyVal)
    (imp : result PyVal) : Env := {|
  str_other := fun _ => "<object>";
  chalice_version := "1.0.0";
  botocore_Session := fun p =>
    Ok {| session_profile := p; user_agent_name := "Botocore";
          user_agent_version := "1.5.0"; user_agent_extra := EmptyString |};
  read_file := fun _ => file;
  json_loads := fun _ => json;
  isdir := fun p => String.eqb p "/proj/vendor";
  import_app := fun _ => imp
|}.

(** The text of a configuration file that only gives a version. *)
Definition version_json (v : string) : string :=
  "{" +:+ dquote +:+ "version" +:+ dquote +:+ ": "
  +:+ dquote +:+ v +:+ dquote +:+ "}".

Definition sample_env : Env :=
  make_env (Ok (version_json "2.0"))
    (Ok (PyDict {["version" := PyStr "2.0"]})) (Ok app_module).

Definition line5_error : syntax_error := {|
  se_class := "SyntaxError";
  se_filename := PyStr "/proj/app.py";
  se_lineno := PyInt 5;
  se_text := PyStr "def index(:";
  se_msg := PyStr "invalid syntax"
|}.

Definition syntax_env : Env :=
  make_env (Ok "{}") (Ok (PyDict ∅)) (Raise (SyntaxError line5_error)).

Definition version3_env : Env :=
  make_env (Ok (version_json "3.0"))
    (Ok (PyDict {["version" := PyStr "3.0"]})) (Ok app_module).

Definition import_error_env : Env :=
  make_env (Ok "{}") (Ok (PyDict ∅))
    (Raise (ImportError "No module named requests")).

Definition missing_file_env : Env :=
  make_env (Raise (OSError "No such file or directory")) (Ok (PyDict ∅))
    (Ok app_module).

(** A fresh process with a given [sys.path]. *)
Definition world_with_path (p : list string) : World :=
  {| sys_path := p; debug_loggers := []; log_filters := []; trace := [] |}.

Definition sample_factory : CLIFactory :=
  {| project_dir := "/proj"; debug := false; profile := PyNone |}.

Definition profile_factory : CLIFactory :=
  {| project_dir := "/proj"; debug := false; profile := PyStr "prod" |}.

Definition dev_config : Config := {|
  chalice_stage := PyStr "dev";
  user_provided_params :=
    <["profile" := PyStr "prod"]>
      (<["autogen_policy" := PyBool false]>
         (<["chalice_app" := PyObject "Chalice" ∅]> ∅));
  config_from_disk := PyDict {["version" := PyStr "2.0"]};
  default_params :=
    <["autogen_policy" := PyBool true]> (<["project_dir" := PyStr "/proj"]> ∅)
|}.

Definition dev_world : World := {|
  sys_path := ["/proj"; "/lib"; "/proj/vendor"];
  debug_loggers := [];
  log_filters := [];
  trace := [EvOpen "/proj/.chalice/config.json";
            EvImport ["/proj"; "/lib"; "/proj/vendor"]; EvConfig]
|}.

(** The records used as examples: botocore logs
    ["Making request for %s (verify: %s) with params: %s"] with the
    operation model, the verify flag and the request dictionary. *)
Definition create_function_op : PyVal :=
  PyObject "OperationModel" {["name" := PyStr "CreateFunction"]}.

Definition upload_record : LogRecord := {|
  msg := PyStr "Making request for %s (verify: %s) with params: %s";
  args := PyTuple [create_function_op; PyBool true; PyStr "UEsDBBQAAAAI"];
  record_fields := {["name" := PyStr "botocore.endpoint"]}
|}.

Definition upload_record_redacted : LogRecord := {|
  msg := PyStr "Making request for %s (verify: %s) with params: %s";
  args := PyTuple [create_function_op; PyBool true; PyStr omitted];
  record_fields := {["name" := PyStr "botocore.endpoint"]}
|}.

Definition bare_record : LogRecord := {|
  msg := PyStr "Making request";
  args := PyTuple [];
  record_fields := ∅
|}.

Definition single_arg_record : LogRecord := {|
  msg := PyStr "Making request for %s";
  args := PyTuple [create_function_op];
  record_fields := ∅
|}.

Definition single_arg_record_redacted : LogRecord := {|
  msg := PyStr "Making request for %s";
  args := PyTuple [PyStr omitted];
  record_fields := ∅
|}.

(** A project whose [config.json] holds a JSON array. *)
Definition array_config_env : Env :=
  make_env (Ok "[]") (Ok (PyList [])) (Ok app_module).

(** [upload_record] with another deployment package. *)
Definition upload_record_other : LogRecord := {|
  msg := PyStr "Making request for %s (verify: %s) with params: %s";
  args := PyTuple [create_function_op; PyBool true; PyStr "UEsDBAoAAAAA"];
  record_fields := {["name" := PyStr "botocore.endpoint"]}
|}.

(** ** Proof steps

    The three optional entries of the user-provided layer: one case per
    combination of arguments that are [None] or not. *)
Ltac case_optional_params :=
  unfold set_if;
  repeat match goal with
         | |- context [is_not_None ?v] => destruct (is_not_None v)
         end.

(** * Part III: properties *)

(** ** Comparing a float with 2.0 *)

(** [x > 2.0] is false exactly when [x <= 2.0] or [x] is NaN: every
    comparison with NaN is false. *)
Lemma float_gt_two_false (f : spec_float) :
  float_gt f float_two = false <->
  float_le f float_two = true \/ f = S754_nan.
Proof.
  unfold float_gt, float_le, SFltb, SFleb, float_two.
  destruct f as [s|s| |s m e]; cbn [SFcompare].
  - split; [now left | reflexivity].
  - destruct s; split; intros H; try (now left); try reflexivity;
      try discriminate. destruct H; discriminate.
  - split; [now right | reflexivity].
  - destruct s; [split; [now left | reflexivity] |].
    rewrite (Z.compare_antisym e (-51)).
    destruct (e ?= -51); cbn [CompOpp].
    + pose proof (Pos.compare_cont_antisym m 4503599627370496 Eq) as A.
      cbn [CompOpp] in A. rewrite <- A.
      destruct (Pos.compare_cont Eq m 4503599627370496); cbn [CompOpp];
        split; intros H; try (now left); try reflexivity; try discriminate;
        destruct H; discriminate.
    + split; [now left | reflexivity].
    + split; intros H; try discriminate. destruct H; discriminate.
Qed.

(** ** The builtin [float] on examples

    Literals are rounded to the nearest float, ties to even: the decimal
    2.0000000000000001 lies within half a unit in the last place of 2.0
    and parses to 2.0 itself.  Large literals overflow to infinity, large
    ints raise. *)
Example float_of_string_examples :
  float_of_string "2.0" = Some float_two /\
  float_of_string "2.0000000000000001" = Some float_two /\
  float_of_string "2.0000000000000003"
    = Some (S754_finite false 4503599627370497 (-51)) /\
  float_of_string "0.1" = Some (S754_finite false 7205759403792794 (-56)) /\
  float_of_string " +1_000.5e-3 "
    = Some (S754_finite false 4505851427184181 (-52)) /\
  float_of_string "5e-324" = Some (S754_finite false 1 (-1074)) /\
  float_of_string "1e400" = Some (S754_infinity false) /\
  float_of_string "-Infinity" = Some (S754_infinity true) /\
  float_of_string "NaN" = Some S754_nan /\
  float_of_string "abc" = None /\
  float_of_string "1e" = None /\
  float_of_string "0x10" = None /\
  float_of_string EmptyString = None.
Proof. vm_compute. repeat split. Qed.

Example float_of_int_examples :
  float_of_int 2 = Ok float_two /\
  float_of_int (2 ^ 53 + 1) = Ok (S754_finite false 4503599627370496 1) /\
  float_of_int (2 ^ 1024) = Raise int_overflow /\
  py_float (PyBool true) = Ok (S754_finite false 4503599627370496 (-52)).
Proof. vm_compute. repeat split. Qed.

(** ** Converting an int to a float

    [binary_round] shifts the mantissa right until it fits 53 bits, rounds
    and shifts once more.  The lemmas below follow the mantissa and the
    exponent through these steps, far enough to compare the result with
    2.0. *)

Lemma digits2_pos_lower (p : positive) :
  2 ^ (Zpos (digits2_pos p) - 1) <= Zpos p.
Proof.
  induction p as [p IH|p IH|]; cbn [digits2_pos].
  - rewrite Pos2Z.inj_succ. replace (Z.succ (Z.pos (digits2_pos p)) - 1) with (Z.succ (Z.pos (digits2_pos p) - 1)) by lia.
    rewrite Z.pow_succ_r by lia. lia.
  - rewrite Pos2Z.inj_succ. replace (Z.succ (Z.pos (digits2_pos p)) - 1) with (Z.succ (Z.pos (digits2_pos p) - 1)) by lia.
    rewrite Z.pow_succ_r by lia. lia.
  - reflexivity.
Qed.

Lemma shr_1_m (r : shr_record) :
  0 <= shr_m r -> shr_m (shr_1 r) = shr_m r / 2.
Proof.
  destruct r as [m b s]. cbn [shr_m]. intros Hm.
  destruct m as [|p|p]; [reflexivity | | lia].
  destruct p as [p|p|]; cbn [shr_1 shr_m].
  - rewrite Pos2Z.inj_xI. apply Z.div_unique with (r := 1); lia.
  - rewrite Pos2Z.inj_xO. apply Z.div_unique with (r := 0); lia.
  - reflexivity.
Qed.

Lemma pow2_xI (n : positive) : 2 ^ Zpos n~1 = 2 * (2 ^ Zpos n * 2 ^ Zpos n).
Proof.
  rewrite Pos2Z.inj_xI. rewrite <- Z.pow_add_r by lia.
  rewrite <- Z.pow_succ_r by lia. f_equal. lia.
Qed.

Lemma pow2_xO (n : positive) : 2 ^ Zpos n~0 = 2 ^ Zpos n * 2 ^ Zpos n.
Proof.
  rewrite Pos2Z.inj_xO. rewrite <- Z.pow_add_r by lia. f_equal. lia.
Qed.

Lemma iter_shr_1_m (n : positive) : forall r : shr_record,
  0 <= shr_m r -> shr_m (SpecFloat.iter_pos shr_1 n r) = shr_m r / 2 ^ Zpos n.
Proof.
  induction n as [n IH|n IH|]; intros r Hr; cbn [SpecFloat.iter_pos].
  - assert (Hq : 0 < 2 ^ Zpos n) by (apply Z.pow_pos_nonneg; lia).
    assert (H1 : 0 <= shr_m (shr_1 r))
      by (rewrite shr_1_m by lia; apply Z.div_pos; lia).
    assert (H2 : 0 <= shr_m (SpecFloat.iter_pos shr_1 n (shr_1 r)))
      by (rewrite IH by lia; apply Z.div_pos; lia).
    rewrite IH by lia. rewrite IH by lia. rewrite shr_1_m by lia.
    rewrite pow2_xI. rewrite !Z.div_div by lia. reflexivity.
  - assert (Hq : 0 < 2 ^ Zpos n) by (apply Z.pow_pos_nonneg; lia).
    assert (H2 : 0 <= shr_m (SpecFloat.iter_pos shr_1 n r))
      by (rewrite IH by lia; apply Z.div_pos; lia).
    rewrite IH by lia. rewrite IH by lia.
    rewrite pow2_xO. rewrite !Z.div_div by lia. reflexivity.
  - rewrite shr_1_m by lia. reflexivity.
Qed.

Lemma shr_record_of_loc_m m l : shr_m (shr_record_of_loc m l) = m.
Proof. destruct l as [|[]]; reflexivity. Qed.

Lemma shr_fexp_positive (p : positive) (e : Z) (l : location) :
  -1074 <= e ->
  0 < shr_m (fst (shr_fexp prec64 emax64 (Zpos p) e l)) /\
  e <= snd (shr_fexp prec64 emax64 (Zpos p) e l).
Proof.
  intros He. unfold shr_fexp, shr.
  set (n := fexp prec64 emax64 (Zdigits2 (Z.pos p) + e) - e).
  assert (Hn : n <= Zpos (digits2_pos p) - 53 \/ n <= 0).
  { subst n. unfold fexp, emin, prec64, emax64, Zdigits2. lia. }
  destruct n as [|k|k] eqn:Hk; cbn [fst snd].
  - rewrite shr_record_of_loc_m. lia.
  - rewrite iter_shr_1_m by (rewrite shr_record_of_loc_m; lia).
    rewrite shr_record_of_loc_m. split; [| lia].
    apply Z.div_str_pos. split; [lia |].
    pose proof (digits2_pos_lower p) as Hd.
    eapply Z.le_trans; [| exact Hd].
    apply Z.pow_le_mono_r; lia.
  - rewrite shr_record_of_loc_m. lia.
Qed.

Lemma round_nearest_even_ge m l : m <= round_nearest_even m l.
Proof. destruct l as [|[]]; cbn; try lia. destruct (Z.even m); lia. Qed.

Lemma binary_round_aux_shape (s : bool) (p : positive) (e : Z) (l : location) :
  -1074 <= e ->
  binary_round_aux prec64 emax64 s (Zpos p) e l = S754_infinity s \/
  exists m e', binary_round_aux prec64 emax64 s (Zpos p) e l = S754_finite s m e'
               /\ e <= e'.
Proof.
  intros He. unfold binary_round_aux.
  pose proof (shr_fexp_positive p e l He) as [H1 H2].
  destruct (shr_fexp prec64 emax64 (Z.pos p) e l) as [r1 e1]. cbn [fst snd] in *.
  pose proof (round_nearest_even_ge (shr_m r1) (loc_of_shr_record r1)) as Hr.
  destruct (round_nearest_even (shr_m r1) (loc_of_shr_record r1)) as [|p2|p2]; try lia.
  assert (He1 : -1074 <= e1) by lia.
  pose proof (shr_fexp_positive p2 e1 loc_Exact He1) as [H3 H4].
  destruct (shr_fexp prec64 emax64 (Z.pos p2) e1 loc_Exact) as [r2 e2]. cbn [fst snd] in *.
  destruct (shr_m r2) as [|m|m]; try lia.
  destruct (e2 <=? emax64 - prec64); [right | now left].
  exists m, e2. split; [reflexivity | lia].
Qed.

Lemma binary_round_int_shape (s : bool) (p : positive) :
  binary_round prec64 emax64 s p 0 = S754_infinity s \/
  exists m e, binary_round prec64 emax64 s p 0 = S754_finite s m e /\
              Z.min 0 (Zpos (digits2_pos p) - 53) <= e.
Proof.
  unfold binary_round, shl_align.
  set (x := fexp prec64 emax64 (Z.pos (digits2_pos p) + 0)).
  assert (Hx : Zpos (digits2_pos p) - 53 <= x /\ -1074 <= x).
  { subst x. unfold fexp, emin, prec64, emax64. lia. }
  destruct (x - 0) as [|k|k] eqn:Hk.
  - destruct (binary_round_aux_shape s p 0 loc_Exact ltac:(lia)) as [H | (m & e & H & He)];
      [now left | right]. exists m, e. split; [exact H | lia].
  - destruct (binary_round_aux_shape s p 0 loc_Exact ltac:(lia)) as [H | (m & e & H & He)];
      [now left | right]. exists m, e. split; [exact H | lia].
  - destruct (binary_round_aux_shape s (Pos.iter xO p k) x loc_Exact ltac:(lia)) as [H | (m & e & H & He)];
      [now left | right]. exists m, e. split; [exact H | lia].
Qed.

Lemma digits2_pos_upper (p : positive) :
  Zpos p < 2 ^ Zpos (digits2_pos p).
Proof.
  induction p as [p IH|p IH|]; cbn [digits2_pos];
    try (rewrite Pos2Z.inj_succ, Z.pow_succ_r by lia; lia).
  reflexivity.
Qed.

Lemma float_of_int_negative (p : positive) :
  float_of_int (Zneg p) = Raise int_overflow \/
  exists m e, float_of_int (Zneg p) = Ok (S754_finite true m e).
Proof.
  unfold float_of_int, binary_normalize.
  destruct (binary_round_int_shape true p) as [H | (m & e & H & _)];
    rewrite H; [now left | right; now exists m, e].
Qed.

Lemma float_of_int_large (p : positive) :
  4 <= Zpos p ->
  float_of_int (Zpos p) = Raise int_overflow \/
  exists m e, float_of_int (Zpos p) = Ok (S754_finite false m e) /\ -50 <= e.
Proof.
  intros Hp. unfold float_of_int, binary_normalize.
  assert (Hd : 3 <= Zpos (digits2_pos p)).
  { pose proof (digits2_pos_upper p) as Hu.
    destruct (Z_lt_le_dec (Zpos (digits2_pos p)) 3) as [Hlt|]; [| assumption].
    assert (H4 : 2 ^ Zpos (digits2_pos p) <= 2 ^ 2)
      by (apply Z.pow_le_mono_r; lia).
    change (2 ^ 2) with 4 in H4. lia. }
  destruct (binary_round_int_shape false p) as [H | (m & e & H & He)];
    rewrite H; [now left | right]. exists m, e. split; [reflexivity | lia].
Qed.

(** An int that converts is greater than 2.0 as a float exactly when it
    is at least 3. *)
Lemma float_of_int_gt_two (z : Z) (f : spec_float) :
  float_of_int z = Ok f -> float_gt f float_two = negb (z <=? 2).
Proof.
  intros Hf. destruct z as [|p|p].
  - vm_compute in Hf. injection Hf as <-. reflexivity.
  - destruct (Z_lt_le_dec (Zpos p) 4) as [Hlt|Hge].
    + assert (Hp : (p = 1 \/ p = 2 \/ p = 3)%positive) by lia.
      destruct Hp as [-> | [-> | ->]]; vm_compute in Hf;
        injection Hf as <-; reflexivity.
    + destruct (float_of_int_large p Hge) as [H | (m & e & H & He)];
        rewrite H in Hf; [discriminate |]. injection Hf as <-.
      replace (Zpos p <=? 2) with false by (symmetry; apply Z.leb_gt; lia).
      unfold float_gt, SFltb, float_two. cbn [SFcompare negb].
      replace (-51 ?= e) with Lt by (symmetry; apply Z.compare_lt_iff; lia).
      reflexivity.
  - destruct (float_of_int_negative p) as [H | (m & e & H)];
      rewrite H in Hf; [discriminate |]. injection Hf as <-. reflexivity.
Qed.

Lemma float_of_int_raises (z : Z) (e : exn) :
  float_of_int z = Raise e -> e = int_overflow.
Proof.
  unfold float_of_int.
  destruct (binary_normalize prec64 emax64 z 0 false); intros H;
    try discriminate. now injection H as <-.
Qed.

(** ** Version validation *)

(** The function by cases on the [version] entry. *)
Lemma validate_config_cases (d : gmap string PyVal) :
  _validate_config_from_disk (PyDict d) =
  match d !! "version" with
  | None => Ok tt
  | Some v =>
      match py_float v with
      | Ok f =>
          if float_gt f float_two then Raise (UnknownConfigFileVersion v)
          else Ok tt
      | Raise e =>
          if is_ValueError e then Raise (UnknownConfigFileVersion v)
          else Raise e
      end
  end.
Proof.
  unfold _validate_config_from_disk, py_dict_get.
  destruct (d !! "version") as [v|]; cbn [rbind].
  - unfold try_except. destruct (py_float v) as [f|e]; cbn [rbind].
    + destruct (float_gt f float_two); reflexivity.
    + reflexivity.
  - vm_compute. reflexivity.
Qed.

(** The examples of the specification: ["2.0"] is accepted, ["2.1"] and
    ["abc"] are refused, a missing key is accepted. *)
Example validate_config_examples :
  _validate_config_from_disk (PyDict {["version" := PyStr "2.0"]}) = Ok tt /\
  _validate_config_from_disk (PyDict {["version" := PyStr "2.1"]})
    = Raise (UnknownConfigFileVersion (PyStr "2.1")) /\
  _validate_config_from_disk (PyDict {["version" := PyStr "abc"]})
    = Raise (UnknownConfigFileVersion (PyStr "abc")) /\
  _validate_config_from_disk (PyDict (∅ : gmap string PyVal)) = Ok tt.
Proof. vm_compute. repeat split. Qed.

(** C1, as amended.  For every raw configuration mapping, validation
    succeeds if and only if the [version] key is absent (it is then read
    as ["1.0"]) or [float] converts its value to a float that is at most
    2.0 or is NaN.  When validation fails on a str it raises
    [UnknownConfigFileVersion], whose message carries the literal; in
    general a failure is [UnknownConfigFileVersion] on the version value,
    or an error of [float] other than [ValueError], which is not caught. *)
Theorem validate_config_version (env : Env) (d : gmap string PyVal) :
  (_validate_config_from_disk (PyDict d) = Ok tt <->
     d !! "version" = None \/
     exists v f, d !! "version" = Some v /\ py_float v = Ok f /\
                 (float_le f float_two = true \/ f = S754_nan))
  /\ (forall s, d !! "version" = Some (PyStr s) ->
        _validate_config_from_disk (PyDict d) = Ok tt \/
        (_validate_config_from_disk (PyDict d)
           = Raise (UnknownConfigFileVersion (PyStr s)) /\
         UnknownConfigFileVersion_message env (PyStr s)
           = "Unknown version '" +:+ s +:+ "' in config.json"))
  /\ (forall e, _validate_config_from_disk (PyDict d) = Raise e ->
        exists v, d !! "version" = Some v /\
          (e = UnknownConfigFileVersion v \/
           (py_float v = Raise e /\ is_ValueError e = false))).
Proof.
  rewrite validate_config_cases.
  destruct (d !! "version") as [v|] eqn:Hv.
  - split; [| split].
    + destruct (py_float v) as [f|e] eqn:Hf.
      * destruct (float_gt f float_two) eqn:Hgt.
        -- split; [discriminate |].
           intros [H | (v' & f' & H1 & H2 & H3)]; [discriminate |].
           injection H1 as <-. rewrite Hf in H2. injection H2 as <-.
           apply float_gt_two_false in H3. congruence.
        -- split; [| reflexivity]. intros _. right. exists v, f.
           split; [reflexivity | split; [exact Hf |]].
           now apply float_gt_two_false.
      * split.
        -- destruct (is_ValueError e); discriminate.
        -- intros [H | (v' & f' & H1 & H2 & _)]; [discriminate |].
           injection H1 as <-. congruence.
    + intros s Hs. injection Hs as ->. cbn [py_float].
      destruct (float_of_string s) as [f|]; cbn [is_ValueError].
      * destruct (float_gt f float_two); [right | left]; now repeat split.
      * right. now split.
    + intros e He. exists v. split; [reflexivity |].
      destruct (py_float v) as [f|e']; cbn in He.
      * destruct (float_gt f float_two); [| discriminate].
        injection He as <-. now left.
      * destruct (is_ValueError e') eqn:Hve; injection He as <-;
          [now left | right; now split].
  - split; [| split].
    + split; [now left | reflexivity].
    + intros s Hs. discriminate.
    + intros e He. discriminate.
Qed.

(** [validate_config_version] at [{"version": "3.0"}]: the failure is
    [UnknownConfigFileVersion("3.0")]. *)
Lemma validate_config_version_witness :
  _validate_config_from_disk (PyDict {["version" := PyStr "3.0"]}) = Ok tt \/
  (_validate_config_from_disk (PyDict {["version" := PyStr "3.0"]})
     = Raise (UnknownConfigFileVersion (PyStr "3.0")) /\
   UnknownConfigFileVersion_message sample_env (PyStr "3.0")
     = "Unknown version '3.0' in config.json").
Proof.
  apply (proj1 (proj2 (validate_config_version sample_env
                         {["version" := PyStr "3.0"]})) "3.0").
  vm_compute. reflexivity.
Defined.

(** C1 as stated fails twice.  ["nan"] is no decimal number at most 2.0,
    and it is accepted: [float("nan")] is NaN and [NaN > 2.0] is false.
    [null] is refused, and the error is the [TypeError] of [float], not
    [UnknownConfigFileVersion]. *)
Lemma validate_config_version_counterexample :
  (py_float (PyStr "nan") = Ok S754_nan /\
   float_le S754_nan float_two = false /\
   _validate_config_from_disk (PyDict {["version" := PyStr "nan"]}) = Ok tt)
  /\ _validate_config_from_disk (PyDict {["version" := PyNone]})
     = Raise float_type_error.
Proof. vm_compute. repeat split. Qed.

(** C10, as amended.  A version that is [None], a list, a tuple, a dict
    or an instance makes validation raise the [TypeError] of [float],
    which is not turned into [UnknownConfigFileVersion]: only
    [ValueError] is caught.  A bool is accepted.  A float is accepted
    exactly when it is at most 2.0 or NaN, and refused with
    [UnknownConfigFileVersion] otherwise.  An int is accepted exactly when
    it is at most 2 and converts to a float; an int too large to convert
    raises [OverflowError], untranslated as well. *)
Theorem validate_non_str_version (d : gmap string PyVal) (v : PyVal) :
  d !! "version" = Some v ->
  match v with
  | PyStr _ => True
  | PyNone | PyList _ | PyTuple _ | PyDict _ | PyObject _ _ =>
      _validate_config_from_disk (PyDict d) = Raise float_type_error
  | PyBool _ => _validate_config_from_disk (PyDict d) = Ok tt
  | PyFloat f =>
      (_validate_config_from_disk (PyDict d) = Ok tt <->
         float_le f float_two = true \/ f = S754_nan) /\
      (_validate_config_from_disk (PyDict d) = Ok tt \/
       _validate_config_from_disk (PyDict d)
         = Raise (UnknownConfigFileVersion v))
  | PyInt z =>
      (_validate_config_from_disk (PyDict d) = Ok tt <->
         z <= 2 /\ is_Ok (float_of_int z) = true) /\
      (is_Ok (float_of_int z) = false ->
         _validate_config_from_disk (PyDict d) = Raise int_overflow) /\
      (3 <= z -> is_Ok (float_of_int z) = true ->
         _validate_config_from_disk (PyDict d)
           = Raise (UnknownConfigFileVersion v))
  end.
Proof.
  intros Hv. rewrite validate_config_cases, Hv.
  destruct v as [|b|z|f|s|l|l|d'|c a]; cbn [py_float]; try reflexivity.
  - destruct b; vm_compute; reflexivity.
  - destruct (float_of_int z) as [f|e] eqn:Hf; cbn [is_Ok].
    + rewrite (float_of_int_gt_two z f Hf).
      destruct (z <=? 2) eqn:Hz; cbn [negb].
      * apply Z.leb_le in Hz.
        split; [split; [intros _; split; [lia | reflexivity] | reflexivity] |].
        split; [discriminate | intros; lia].
      * apply Z.leb_gt in Hz.
        split; [split; [discriminate | intros [H _]; lia] |].
        split; [discriminate | reflexivity].
    + apply float_of_int_raises in Hf as ->. cbn [is_ValueError int_overflow].
      split; [split; [discriminate | intros [_ H]; discriminate] |].
      split; [reflexivity | discriminate].
  - pose proof (float_gt_two_false f) as Hgt.
    destruct (float_gt f float_two).
    + split; [| now right]. split; [discriminate |].
      intros H. apply Hgt in H. discriminate.
    + split; [| now left]. split; [| reflexivity].
      intros _. now apply Hgt.
Qed.

(** [validate_non_str_version] at [{"version": 3}]. *)
Lemma validate_non_str_version_witness :
  (_validate_config_from_disk (PyDict {["version" := PyInt 3]}) = Ok tt <->
     3 <= 2 /\ is_Ok (float_of_int 3) = true) /\
  (is_Ok (float_of_int 3) = false ->
     _validate_config_from_disk (PyDict {["version" := PyInt 3]})
       = Raise int_overflow) /\
  (3 <= 3 -> is_Ok (float_of_int 3) = true ->
     _validate_config_from_disk (PyDict {["version" := PyInt 3]})
       = Raise (UnknownConfigFileVersion (PyInt 3))).
Proof.
  apply (validate_non_str_version {["version" := PyInt 3]} (PyInt 3)).
  vm_compute. reflexivity.
Defined.

(** C10 as stated fails on numbers.  NaN, which [json.loads] yields for
    the literal [NaN], is accepted and is not at most 2.0.  An int that is
    at most 2 and too large in magnitude for a float is not accepted: the
    conversion raises [OverflowError]. *)
Lemma validate_non_str_version_counterexample :
  (float_le S754_nan float_two = false /\
   _validate_config_from_disk (PyDict {["version" := PyFloat S754_nan]})
     = Ok tt)
  /\ ((- 10 ^ 400 <=? 2) = true /\
      _validate_config_from_disk (PyDict {["version" := PyInt (- 10 ^ 400)]})
        = Raise int_overflow).
Proof. vm_compute. repeat split. Qed.

(** ** The logging filter *)

(** Replacing the last element of a non-empty list. *)
Lemma replace_last_length (l : list PyVal) (x : PyVal) :
  l <> [] -> length (removelast l ++ [x]) = length l.
Proof.
  intros Hl. rewrite (app_removelast_last x Hl) at 2.
  now rewrite !length_app.
Qed.

Lemma replace_last_lookup (l : list PyVal) (x : PyVal) (i : nat) :
  (S i < length l)%nat -> (removelast l ++ [x]) !! i = l !! i.
Proof.
  revert i. induction l as [|a l IH]; intros i Hi; [cbn in Hi; lia |].
  destruct l as [|b l]; [cbn in Hi; lia |].
  change (removelast (a :: b :: l)) with (a :: removelast (b :: l)).
  destruct i as [|i]; [reflexivity |].
  cbn [app]. rewrite !lookup_cons. apply IH. cbn in Hi |- *. lia.
Qed.

Lemma replace_last_last (l : list PyVal) (x : PyVal) :
  last (removelast l ++ [x]) = Some x.
Proof. apply last_snoc. Qed.

(** The verdict never depends on the record: when [filter] returns, it
    returns [True]. *)
Lemma filter_verdict (r r' : LogRecord) (b : bool) :
  LargeRequestBodyFilter.filter r = Ok (b, r') -> b = true.
Proof.
  unfold LargeRequestBodyFilter.filter.
  destruct (py_startswith (msg r) "Making request") as [[|]|]; cbn [rbind];
    [| congruence | discriminate].
  destruct (py_getitem0 (args r)) as [a0|]; cbn [rbind]; [| discriminate].
  destruct (py_getattr a0 "name") as [n|]; cbn [rbind]; [| discriminate].
  destruct (py_in_strs n _); [| congruence].
  destruct (py_init_plus_tuple (args r) _); cbn [rbind]; congruence.
Qed.

(** The examples of the specification: a function-creation record is
    redacted; a record naming another operation and a record with another
    message are returned as they are. *)
Example filter_examples :
  LargeRequestBodyFilter.filter upload_record
    = Ok (true, upload_record_redacted) /\
  (let r := {| msg := PyStr "Making request for %s (verify: %s) with params: %s";
               args := PyTuple [PyObject "OperationModel"
                                  {["name" := PyStr "GetFunction"]};
                                PyBool true; PyStr "{}"];
               record_fields := ∅ |} in
   LargeRequestBodyFilter.filter r = Ok (true, r)) /\
  (let r := {| msg := PyStr "Sending http request: %s";
               args := PyTuple [create_function_op];
               record_fields := ∅ |} in
   LargeRequestBodyFilter.filter r = Ok (true, r)).
Proof. vm_compute. repeat split. Qed.

(** C5, as amended.  Take a record whose message is a str and, when the
    message starts with ["Making request"], whose positional arguments
    are a non-empty tuple whose first element has a [name].  The filter
    returns [True].  If the message starts with the prefix and the name is
    [UpdateFunctionCode] or [CreateFunction], the last positional argument
    is replaced with the placeholder: same length, same elements before
    the last, same message and other fields.  Every other such record is
    returned as it was. *)
Theorem filter_keeps_and_redacts (r : LogRecord) (m : string)
    (a0 : PyVal) (rest : list PyVal) (n : PyVal) :
  msg r = PyStr m ->
  (String.prefix "Making request" m = true ->
     args r = PyTuple (a0 :: rest) /\ py_getattr a0 "name" = Ok n) ->
  exists r', LargeRequestBodyFilter.filter r = Ok (true, r') /\
    if String.prefix "Making request" m
       && (py_eq_str n "UpdateFunctionCode" || py_eq_str n "CreateFunction")
    then
      msg r' = msg r /\ record_fields r' = record_fields r /\
      exists l', args r' = PyTuple l' /\
        length l' = length (a0 :: rest) /\
        last l' = Some (PyStr omitted) /\
        forall i, (S i < length (a0 :: rest))%nat ->
                  l' !! i = (a0 :: rest) !! i
    else r' = r.
Proof.
  intros Hmsg Hargs. unfold LargeRequestBodyFilter.filter.
  rewrite Hmsg. cbn [py_startswith rbind].
  destruct (String.prefix "Making request" m); cbn [andb].
  - destruct (Hargs eq_refl) as [Ha Hn]. rewrite Ha.
    cbn [py_getitem0 rbind]. rewrite Hn. cbn [rbind].
    unfold py_in_strs. cbn [existsb]. rewrite orb_false_r.
    destruct (py_eq_str n "UpdateFunctionCode" || py_eq_str n "CreateFunction").
    + cbn [py_init_plus_tuple rbind]. eexists. split; [reflexivity |].
      cbn [set_args msg record_fields args].
      split; [exact Hmsg | split; [reflexivity |]].
      eexists. split; [reflexivity |].
      split; [now apply replace_last_length |].
      split; [apply replace_last_last |].
      intros i Hi. now apply replace_last_lookup.
    + now exists r.
  - now exists r.
Qed.

(** [filter_keeps_and_redacts] at a record of a [CreateFunction] call. *)
Lemma filter_keeps_and_redacts_witness :
  exists r', LargeRequestBodyFilter.filter upload_record = Ok (true, r') /\
    (msg r' = msg upload_record /\
     record_fields r' = record_fields upload_record /\
     exists l', args r' = PyTuple l' /\
       length l' = 3%nat /\
       last l' = Some (PyStr omitted) /\
       forall i, (S i < 3)%nat ->
         l' !! i
         = [create_function_op; PyBool true; PyStr "UEsDBBQAAAAI"] !! i).
Proof.
  apply (filter_keeps_and_redacts upload_record
           "Making request for %s (verify: %s) with params: %s"
           create_function_op [PyBool true; PyStr "UEsDBBQAAAAI"]
           (PyStr "CreateFunction")).
  - reflexivity.
  - intros _. split; reflexivity.
Defined.

(** C5 as stated fails on a record logged without arguments: [args] is
    the empty tuple, [record.args[0]] raises [IndexError], and the filter
    returns no verdict. *)
Lemma filter_keeps_and_redacts_counterexample :
  LargeRequestBodyFilter.filter bare_record
  = Raise (IndexError "index out of range").
Proof. reflexivity. Qed.

(** C9, as amended.  Whenever the filter returns, the message and the
    fields other than [args] are unchanged, and either the record is
    unchanged or [args] was a tuple that keeps its length and every
    element before the last.  Filtering the result again returns the same
    result, unless the record was changed and had exactly one positional
    argument. *)
Theorem filter_frame (r r' : LogRecord) (b : bool) :
  LargeRequestBodyFilter.filter r = Ok (b, r') ->
  msg r' = msg r /\ record_fields r' = record_fields r /\
  (r' = r \/
   exists l l', args r = PyTuple l /\ args r' = PyTuple l' /\
     length l' = length l /\
     forall i, (S i < length l)%nat -> l' !! i = l !! i) /\
  (r' = r \/ (forall a, args r <> PyTuple [a]) ->
   LargeRequestBodyFilter.filter r' = Ok (b, r')).
Proof.
  intros H. pose proof H as H0. unfold LargeRequestBodyFilter.filter in H.
  destruct (py_startswith (msg r) "Making request") as [[|]|] eqn:Hs;
    cbn [rbind] in H; [| | discriminate].
  2:{ injection H as <- <-. repeat split; [now left | now intros _]. }
  destruct (py_getitem0 (args r)) as [a0|] eqn:H0a; cbn [rbind] in H;
    [| discriminate].
  destruct (py_getattr a0 "name") as [n|] eqn:Hn; cbn [rbind] in H;
    [| discriminate].
  destruct (py_in_strs n _) eqn:Hin.
  2:{ injection H as <- <-. repeat split; [now left | now intros _]. }
  destruct (args r) as [| | | | |l|l| |] eqn:Ha; try discriminate.
  cbn [py_init_plus_tuple rbind] in H. injection H as <- <-.
  destruct l as [|a l]; [discriminate |]. injection H0a as ->.
  cbn [set_args msg record_fields args].
  split; [reflexivity | split; [reflexivity | split]].
  - right. exists (a0 :: l), (removelast (a0 :: l) ++ [PyStr omitted]).
    split; [reflexivity | split; [reflexivity |]].
    split; [now apply replace_last_length |].
    intros i Hi. now apply replace_last_lookup.
  - intros [Hsame | Hone].
    { rewrite Hsame. cbn [set_args msg record_fields args] in H0.
      rewrite Hsame in H0. exact H0. }
    destruct l as [|a1 l]; [now destruct (Hone a0) |].
    unfold LargeRequestBodyFilter.filter.
    cbn [set_args msg record_fields args]. rewrite Hs. cbn [rbind].
    change (removelast (a0 :: a1 :: l)) with (a0 :: removelast (a1 :: l)).
    cbn [app py_getitem0 rbind]. rewrite Hn. cbn [rbind]. rewrite Hin.
    cbn [py_init_plus_tuple rbind set_args msg record_fields args].
    change (a0 :: removelast (a1 :: l) ++ [PyStr omitted])
      with ((a0 :: removelast (a1 :: l)) ++ [PyStr omitted]).
    now rewrite removelast_last.
Qed.

(** [filter_frame] at the record of a [CreateFunction] call, which has
    three positional arguments. *)
Lemma filter_frame_witness :
  (msg upload_record_redacted = msg upload_record /\
   record_fields upload_record_redacted = record_fields upload_record) /\
  LargeRequestBodyFilter.filter upload_record_redacted
  = Ok (true, upload_record_redacted).
Proof.
  destruct (filter_frame upload_record upload_record_redacted true eq_refl)
    as (Hm & Hf & _ & Hidem).
  split; [now split |]. apply Hidem. right. intros a H. discriminate H.
Defined.

(** C9 as stated fails on a record with a single positional argument:
    the operation model itself is replaced, and the second call finds a
    str, which has no [name]. *)
Lemma filter_frame_counterexample :
  LargeRequestBodyFilter.filter single_arg_record
    = Ok (true, single_arg_record_redacted)
  /\ LargeRequestBodyFilter.filter single_arg_record_redacted
    = Raise (AttributeError "object has no attribute name").
Proof. split; reflexivity. Qed.

(** ** Sessions *)

(** C6.  For every profile and debug flag, whenever the botocore
    constructor yields a session [s0], [create_botocore_session] returns
    a session whose user agent name is ["aws-chalice"], whose version is
    the chalice version, and whose extra field is the name and version of
    [s0] joined by a slash.  It fails only if the constructor does. *)
Theorem create_botocore_session_user_agent (env : Env) (p : PyVal)
    (dbg : bool) (w : World) (s0 : Session) :
  botocore_Session env p = Ok s0 ->
  exists s, fst (create_botocore_session env p dbg w) = Ok s /\
    user_agent_name s = "aws-chalice" /\
    user_agent_version s = chalice_version env /\
    user_agent_extra s
      = user_agent_name s0 +:+ "/" +:+ user_agent_version s0 /\
    session_profile s = session_profile s0.
Proof.
  intros H0. unfold create_botocore_session, bind, lift. rewrite H0.
  exists (_add_chalice_user_agent env s0).
  split; [destruct dbg; reflexivity |]. repeat split.
Qed.

(** [create_botocore_session_user_agent] with debugging on. *)
Lemma create_botocore_session_user_agent_witness :
  exists s,
    fst (create_botocore_session sample_env (PyStr "dev") true
           {| sys_path := []; debug_loggers := []; log_filters := [];
              trace := [] |}) = Ok s /\
    user_agent_name s = "aws-chalice" /\
    user_agent_version s = "1.0.0" /\
    user_agent_extra s = "Botocore/1.5.0" /\
    session_profile s = PyStr "dev".
Proof.
  apply (create_botocore_session_user_agent sample_env (PyStr "dev") true
           _ {| session_profile := PyStr "dev"; user_agent_name := "Botocore";
                user_agent_version := "1.5.0";
                user_agent_extra := EmptyString |}).
  reflexivity.
Defined.

(** With [debug] set, the debug logger is switched on and one filter is
    added to [botocore.endpoint]; otherwise logging is left alone. *)
Lemma create_botocore_session_logging (env : Env) (p : PyVal) (dbg : bool)
    (w : World) (s0 : Session) :
  botocore_Session env p = Ok s0 ->
  let w' := snd (create_botocore_session env p dbg w) in
  sys_path w' = sys_path w /\ trace w' = trace w /\
  debug_loggers w'
    = debug_loggers w ++ (if dbg then [EmptyString] else []) /\
  log_filters w'
    = log_filters w ++
      (if dbg then [("botocore.endpoint", LargeRequestBodyFilter_object)]
       else []).
Proof.
  intros H0. unfold create_botocore_session, bind, lift. rewrite H0.
  destruct dbg; cbn; rewrite ?app_nil_r; repeat split.
Qed.

(** ** Loading the application *)

Lemma append_cons (c : ascii) (a b : string) :
  String c a +:+ b = String c (a +:+ b).
Proof. reflexivity. Qed.

Lemma append_length (a b : string) :
  String.length (a +:+ b) = (String.length a + String.length b)%nat.
Proof.
  induction a as [|c a IH]; [reflexivity |].
  rewrite append_cons. cbn [String.length Nat.add]. now rewrite IH.
Qed.

Lemma append_assoc (a b c : string) : (a +:+ b) +:+ c = a +:+ (b +:+ c).
Proof.
  induction a as [|x a IH]; [reflexivity |].
  rewrite !append_cons. now rewrite IH.
Qed.


Lemma append_empty_r (a : string) : a +:+ EmptyString = a.
Proof.
  induction a as [|x a IH]; [reflexivity |].
  rewrite append_cons. now rewrite IH.
Qed.

(** The vendor directory is never the project directory itself. *)
Lemma vendor_dir_neq (pd : string) : os_path_join pd ["vendor"] <> pd.
Proof.
  assert (Hp : String.prefix "/" "vendor" = false) by (vm_compute; reflexivity).
  intros H. apply (f_equal String.length) in H. revert H.
  unfold os_path_join, path_join1. cbn [fold_left]. rewrite Hp.
  destruct (String.eqb pd EmptyString || ends_with_slash pd);
    rewrite !append_length; cbn [String.length]; lia.
Qed.

Lemma getattr_not_syntax_error (v : PyVal) (name : string) (e : exn) :
  py_getattr v name = Raise e -> is_SyntaxError e = false.
Proof.
  destruct v; cbn [py_getattr]; try (intros H; now injection H as <-).
  destruct (attrs !! name); [discriminate |].
  intros H; now injection H as <-.
Qed.

(** [load_chalice_app] in one step: the new world and the outcome. *)
Lemma load_chalice_app_cases (env : Env) (self : CLIFactory) (w : World) :
  load_chalice_app env self w =
  (match import_app env (adjusted_path env self (sys_path w)) with
   | Ok app => py_getattr app "app"
   | Raise (SyntaxError se) =>
       Raise (RuntimeError (syntax_error_message env se))
   | Raise e => Raise e
   end,
   {| sys_path := adjusted_path env self (sys_path w);
      debug_loggers := debug_loggers w;
      log_filters := log_filters w;
      trace := trace w ++ [EvImport (adjusted_path env self (sys_path w))] |}).
Proof.
  destruct w as [path dl lf tr].
  unfold adjusted_path.
  cbv beta iota delta [load_chalice_app import_module_app bind gets modify
    ret raise try_exceptM lift emit set_sys_path].
  fold (vendor_dir self). cbn [sys_path debug_loggers log_filters trace].
  pose proof (vendor_dir_neq (project_dir self)) as Hne. fold (vendor_dir self) in Hne.
  assert (Hin : bool_decide (vendor_dir self ∈ project_dir self :: path)
                = bool_decide (vendor_dir self ∈ path)).
  { apply bool_decide_ext. rewrite elem_of_cons. tauto. }
  destruct (decide (project_dir self ∈ path)) as [Hp|Hp];
    cbn [sys_path debug_loggers log_filters trace]; rewrite ?Hin;
    destruct (isdir env (vendor_dir self)
              && negb (bool_decide (vendor_dir self ∈ path)));
    cbn [sys_path debug_loggers log_filters trace app];
    rewrite ?app_nil_r;
    (match goal with
     | |- context [import_app env ?p] =>
         destruct (import_app env p) as [a|e]
     end;
     [ destruct (py_getattr a "app") as [x|e] eqn:Hg;
       [ reflexivity
       | rewrite (getattr_not_syntax_error _ _ _ Hg); reflexivity ]
     | destruct e; reflexivity ]).
Qed.

Lemma adjusted_path_idempotent (env : Env) (self : CLIFactory)
    (p : list string) :
  adjusted_path env self (adjusted_path env self p) = adjusted_path env self p.
Proof.
  unfold adjusted_path.
  set (pre := if decide (project_dir self ∈ p) then [] else [project_dir self]).
  set (post := if isdir env (vendor_dir self)
                  && negb (bool_decide (vendor_dir self ∈ p))
               then [vendor_dir self] else []).
  assert (Hpd : project_dir self ∈ pre ++ p ++ post).
  { subst pre. destruct (decide (project_dir self ∈ p)); set_solver. }
  rewrite (decide_True (A := list string) _ _ Hpd).
  destruct (isdir env (vendor_dir self)) eqn:Hd; cbn [andb].
  - assert (Hvd : vendor_dir self ∈ pre ++ p ++ post).
    { subst post. rewrite ?Hd. cbn [andb].
      destruct (bool_decide (vendor_dir self ∈ p)) eqn:Hb; cbn [negb].
      - apply bool_decide_eq_true in Hb. set_solver.
      - set_solver. }
    rewrite (bool_decide_eq_true_2 _ Hvd). cbn [negb app].
    now rewrite app_nil_r.
  - cbn [app]. now rewrite app_nil_r.
Qed.

(** C3, as amended.  For every initial search path, two calls leave the
    path one call leaves: the entries found, in their order, preceded by
    the project directory unless it was among them, and followed by the
    vendor directory if it exists on disk and was not among them.  So a
    project directory that was not on the initial path appears exactly
    once, at the front; a vendor directory that exists and was not on the
    initial path appears exactly once, after all the entries found; and a
    repeated call duplicates neither. *)
Theorem sys_path_adjusted_once (env : Env) (self : CLIFactory) (w : World) :
  sys_path (load_twice env self w)
    = sys_path (snd (load_chalice_app env self w)) /\
  sys_path (load_twice env self w) = adjusted_path env self (sys_path w) /\
  (project_dir self ∉ sys_path w ->
     exists t, sys_path (load_twice env self w) = (project_dir self :: t) /\
               project_dir self ∉ t) /\
  (isdir env (vendor_dir self) = true -> vendor_dir self ∉ sys_path w ->
     exists t, sys_path (load_twice env self w) = t ++ [vendor_dir self] /\
               (vendor_dir self ∉ t) /\
               forall x, x ∈ sys_path w -> x ∈ t).
Proof.
  assert (H2 : sys_path (load_twice env self w)
               = adjusted_path env self (sys_path w)).
  { unfold load_twice. rewrite !load_chalice_app_cases.
    cbn [snd sys_path]. apply adjusted_path_idempotent. }
  pose proof (vendor_dir_neq (project_dir self)) as Hne.
  fold (vendor_dir self) in Hne.
  split; [| split; [exact H2 | split]].
  - rewrite H2, load_chalice_app_cases. reflexivity.
  - intros Hp. rewrite H2. unfold adjusted_path.
    rewrite (decide_False (A := list string) _ _ Hp). cbn [app].
    eexists. split; [reflexivity |].
    destruct (isdir env (vendor_dir self)
              && negb (bool_decide (vendor_dir self ∈ sys_path w)));
      set_solver.
  - intros Hd Hv. rewrite H2. unfold adjusted_path.
    rewrite Hd, (bool_decide_eq_false_2 _ Hv). cbn [andb negb].
    rewrite app_assoc. eexists. split; [reflexivity |].
    destruct (decide (project_dir self ∈ sys_path w)); set_solver.
Qed.

(** [sys_path_adjusted_once] on a path that holds neither directory. *)
Lemma sys_path_adjusted_once_witness :
  (exists t, sys_path (load_twice sample_env sample_factory
                          (world_with_path ["/lib"])) = ("/proj" :: t) /\
             "/proj" ∉ t) /\
  (exists t, sys_path (load_twice sample_env sample_factory
                          (world_with_path ["/lib"])) = t ++ ["/proj/vendor"] /\
             ("/proj/vendor" ∉ t) /\
             forall x, x ∈ ["/lib"] -> x ∈ t).
Proof.
  pose proof (sys_path_adjusted_once sample_env sample_factory
                (world_with_path ["/lib"])) as (_ & _ & Hp & Hv).
  split.
  - apply Hp. apply (bool_decide_unpack _). vm_compute. exact I.
  - apply Hv; [reflexivity |]. apply (bool_decide_unpack _). vm_compute.
    exact I.
Defined.

(** C3 as stated fails when the initial path already holds one of the
    directories.  A project directory found behind another entry stays
    there, not at the front; a vendor directory found in front of another
    entry stays there, not after it. *)
Lemma sys_path_adjusted_once_counterexample :
  sys_path (load_twice sample_env sample_factory
              (world_with_path ["/lib"; "/proj"]))
    = ["/lib"; "/proj"; "/proj/vendor"]
  /\ sys_path (load_twice sample_env sample_factory
                 (world_with_path ["/proj/vendor"; "/lib"]))
    = ["/proj"; "/proj/vendor"; "/lib"].
Proof. vm_compute. split; reflexivity. Qed.

Lemma syntax_error_message_fields (env : Env) (se : syntax_error) :
  let str := py_str (str_other env) in
  occurs_in (str (se_filename se)) (syntax_error_message env se) /\
  occurs_in (str (se_lineno se)) (syntax_error_message env se) /\
  occurs_in (str (se_text se)) (syntax_error_message env se) /\
  occurs_in (str (se_msg se)) (syntax_error_message env se).
Proof.
  cbv zeta. unfold syntax_error_message, occurs_in.
  set (F := py_str (str_other env) (se_filename se)).
  set (L := py_str (str_other env) (se_lineno se)).
  set (T := py_str (str_other env) (se_text se)).
  set (M := py_str (str_other env) (se_msg se)).
  repeat split.
  - exists ("Unable to import your app.py file:" +:+ nl +:+ nl
            +:+ "File " +:+ dquote).
    eexists. rewrite !append_assoc. reflexivity.
  - exists ("Unable to import your app.py file:" +:+ nl +:+ nl
            +:+ "File " +:+ dquote +:+ F +:+ dquote +:+ ", line ").
    eexists. rewrite !append_assoc. reflexivity.
  - exists ("Unable to import your app.py file:" +:+ nl +:+ nl
            +:+ "File " +:+ dquote +:+ F +:+ dquote +:+ ", line " +:+ L
            +:+ nl +:+ "  ").
    eexists. rewrite !append_assoc. reflexivity.
  - exists ("Unable to import your app.py file:" +:+ nl +:+ nl
            +:+ "File " +:+ dquote +:+ F +:+ dquote +:+ ", line " +:+ L
            +:+ nl +:+ "  " +:+ T +:+ nl +:+ "SyntaxError: ").
    exists EmptyString. rewrite !append_assoc, append_empty_r. reflexivity.
Qed.

(** How [load_chalice_app] can fail: on a [SyntaxError] of the import,
    translated; on another exception of the import, unchanged; on a
    module without [app]. *)
Lemma load_chalice_app_raises (env : Env) (self : CLIFactory) (w : World)
    (e : exn) :
  fst (load_chalice_app env self w) = Raise e ->
  (exists se,
     import_app env (adjusted_path env self (sys_path w))
       = Raise (SyntaxError se) /\
     e = RuntimeError (syntax_error_message env se)) \/
  (import_app env (adjusted_path env self (sys_path w)) = Raise e /\
   is_SyntaxError e = false) \/
  (exists app,
     import_app env (adjusted_path env self (sys_path w)) = Ok app /\
     py_getattr app "app" = Raise e).
Proof.
  rewrite load_chalice_app_cases. cbn [fst].
  destruct (import_app env (adjusted_path env self (sys_path w)))
    as [app|e0]; intros He.
  - right. right. exists app. now split.
  - destruct e0; injection He as <-; try (right; left; now split).
    left. eexists. now split.
Qed.

(** C4.  [load_chalice_app] raises the translated [RuntimeError] when
    the import raises a [SyntaxError], and the message holds the file
    name, the line number, the source line and the description of the
    error.  Every other exception of the import, and the
    [AttributeError] of a module without [app], is raised as it is; and
    these are the only ways the load fails. *)
Theorem load_chalice_app_errors (env : Env) (self : CLIFactory) (w : World) :
  (forall se,
     import_app env (adjusted_path env self (sys_path w))
       = Raise (SyntaxError se) ->
     fst (load_chalice_app env self w)
       = Raise (RuntimeError (syntax_error_message env se)) /\
     occurs_in (py_str (str_other env) (se_filename se))
       (syntax_error_message env se) /\
     occurs_in (py_str (str_other env) (se_lineno se))
       (syntax_error_message env se) /\
     occurs_in (py_str (str_other env) (se_text se))
       (syntax_error_message env se) /\
     occurs_in (py_str (str_other env) (se_msg se))
       (syntax_error_message env se)) /\
  (forall e,
     import_app env (adjusted_path env self (sys_path w)) = Raise e ->
     is_SyntaxError e = false ->
     fst (load_chalice_app env self w) = Raise e) /\
  (forall app,
     import_app env (adjusted_path env self (sys_path w)) = Ok app ->
     fst (load_chalice_app env self w) = py_getattr app "app") /\
  (forall e, fst (load_chalice_app env self w) = Raise e ->
     (exists se,
        import_app env (adjusted_path env self (sys_path w))
          = Raise (SyntaxError se) /\
        e = RuntimeError (syntax_error_message env se)) \/
     (import_app env (adjusted_path env self (sys_path w)) = Raise e /\
      is_SyntaxError e = false) \/
     (exists app,
        import_app env (adjusted_path env self (sys_path w)) = Ok app /\
        py_getattr app "app" = Raise e)).
Proof.
  split; [| split; [| split; [| apply load_chalice_app_raises]]];
    rewrite load_chalice_app_cases; cbn [fst].
  - intros se H. rewrite H.
    split; [reflexivity | apply syntax_error_message_fields].
  - intros e H Hs. rewrite H. destruct e; try reflexivity. discriminate.
  - intros app H. now rewrite H.
Qed.

(** [load_chalice_app_errors] for an [app.py] whose line 5 does not
    parse. *)
Lemma load_chalice_app_errors_witness :
  fst (load_chalice_app syntax_env sample_factory (world_with_path ["/lib"]))
    = Raise (RuntimeError (syntax_error_message syntax_env line5_error)) /\
  occurs_in "/proj/app.py" (syntax_error_message syntax_env line5_error) /\
  occurs_in "5" (syntax_error_message syntax_env line5_error) /\
  occurs_in "def index(:" (syntax_error_message syntax_env line5_error) /\
  occurs_in "invalid syntax" (syntax_error_message syntax_env line5_error).
Proof.
  apply (proj1 (load_chalice_app_errors syntax_env sample_factory
                  (world_with_path ["/lib"])) line5_error).
  reflexivity.
Defined.

(** ** Building the configuration object *)

Lemma load_project_config_cases (env : Env) (self : CLIFactory) (w : World) :
  load_project_config env self w =
  (rbind (read_file env (config_path self)) (json_loads env),
   emit (EvOpen (config_path self)) w).
Proof.
  unfold load_project_config, bind, modify, lift. fold (config_path self).
  destruct (read_file env (config_path self)); reflexivity.
Qed.

(** [create_config_obj] by cases: the outcome of reading the file, of
    the validation, and of loading the application. *)
Lemma create_config_obj_cases (env : Env) (self : CLIFactory)
    (stage ap ags : PyVal) (w : World) :
  create_config_obj env self stage ap ags w =
  let w1 := snd (load_project_config env self w) in
  match fst (load_project_config env self w) with
  | Raise e =>
      (Raise (if is_OSError e then RuntimeError config_unreadable else e), w1)
  | Ok cfg =>
      match _validate_config_from_disk cfg with
      | Raise e => (Raise e, w1)
      | Ok _ =>
          match load_chalice_app env self w1 with
          | (Raise e, w2) => (Raise e, w2)
          | (Ok app, w2) =>
              (Ok {| chalice_stage := stage;
                     user_provided_params :=
                       set_if (is_not_None ags) "api_gateway_stage" ags
                         (set_if (is_not_None (profile self)) "profile"
                            (profile self)
                            (set_if (is_not_None ap) "autogen_policy" ap
                               (<["chalice_app" := app]> ∅)));
                     config_from_disk := cfg;
                     default_params :=
                       <["autogen_policy" := PyBool true]>
                         (<["project_dir" := PyStr (project_dir self)]> ∅) |},
               emit EvConfig w2)
          end
      end
  end.
Proof.
  cbv beta iota zeta delta [create_config_obj bind try_exceptM raise lift
                             Config_init modify ret].
  destruct (load_project_config env self w) as [[cfg|e] w1]; cbn [fst snd].
  - destruct (_validate_config_from_disk cfg) as [u|e]; [| reflexivity].
    destruct (load_chalice_app env self w1) as [[app|e] w2]; reflexivity.
  - destruct (is_OSError e); reflexivity.
Qed.

(** The errors validation can raise. *)
Lemma validate_config_raises (cfg : PyVal) (e : exn) :
  _validate_config_from_disk cfg = Raise e ->
  (exists v, e = UnknownConfigFileVersion v) \/
  e = float_type_error \/ e = int_overflow \/
  e = AttributeError "object has no attribute get".
Proof.
  unfold _validate_config_from_disk.
  destruct (py_dict_get cfg "version" (PyStr "1.0")) as [v|e0] eqn:Hget;
    cbn [rbind].
  - unfold try_except.
    destruct (py_float v) as [f|e1] eqn:Hf; cbn [rbind].
    + destruct (float_gt f float_two); [| discriminate].
      intros H. injection H as <-. left. now exists v.
    + destruct (is_ValueError e1) eqn:Hve.
      * intros H. injection H as <-. left. now exists v.
      * intros H. injection H as <-. right.
        destruct v; cbn [py_float] in Hf;
          try (injection Hf as <-; now left).
        -- apply float_of_int_raises in Hf. now (right; left).
        -- apply float_of_int_raises in Hf. now (right; left).
        -- discriminate.
        -- destruct (float_of_string s); [discriminate |].
           injection Hf as <-. discriminate.
  - intros H. injection H as <-.
    destruct cfg; cbn [py_dict_get] in Hget;
      try (injection Hget as <-; now (right; right; right)).
    destruct (d !! "version"); discriminate.
Qed.

(** C7.  When [create_config_obj] succeeds, the user-provided layer
    holds the application [load_chalice_app] returned after the
    configuration file was read; it holds
    [autogen_policy], [profile] and [api_gateway_stage] exactly when the
    argument, the factory's profile and the stage argument are not
    [None], with these values, and no other key; the default layer holds
    the project directory and [autogen_policy = True], and nothing
    else. *)
Theorem create_config_obj_params (env : Env) (self : CLIFactory)
    (stage ap ags : PyVal) (w w' : World) (cfg : Config) :
  create_config_obj env self stage ap ags w = (Ok cfg, w') ->
  (exists app w2,
     load_chalice_app env self (snd (load_project_config env self w))
       = (Ok app, w2) /\
     user_provided_params cfg !! "chalice_app" = Some app) /\
  user_provided_params cfg !! "autogen_policy"
    = (if is_not_None ap then Some ap else None) /\
  user_provided_params cfg !! "profile"
    = (if is_not_None (profile self) then Some (profile self) else None) /\
  user_provided_params cfg !! "api_gateway_stage"
    = (if is_not_None ags then Some ags else None) /\
  dom (user_provided_params cfg)
    ⊆ {["chalice_app"; "autogen_policy"; "profile"; "api_gateway_stage"]} /\
  default_params cfg !! "project_dir" = Some (PyStr (project_dir self)) /\
  default_params cfg !! "autogen_policy" = Some (PyBool true) /\
  dom (default_params cfg) = {["project_dir"; "autogen_policy"]}.
Proof.
  rewrite create_config_obj_cases. cbv zeta.
  destruct (fst (load_project_config env self w)) as [c|e]; [| discriminate].
  destruct (_validate_config_from_disk c) as [u|e]; [| discriminate].
  destruct (load_chalice_app env self (snd (load_project_config env self w)))
    as [[app|e] w2] eqn:Hload; [| discriminate].
  intros H. injection H as <- <-.
  cbn [user_provided_params default_params].
  split.
  { exists app, w2. split; [reflexivity |].
    case_optional_params; by simplify_map_eq. }
  split.
  { case_optional_params; by simplify_map_eq. }
  split.
  { case_optional_params; by simplify_map_eq. }
  split.
  { case_optional_params; by simplify_map_eq. }
  split.
  { case_optional_params; rewrite ?dom_insert_L, dom_empty_L; set_solver. }
  split; [by simplify_map_eq |].
  split; [by simplify_map_eq |].
  rewrite !dom_insert_L, dom_empty_L. set_solver.
Qed.

(** [create_config_obj_params] for a factory with a profile and a call
    that passes [autogen_policy=False] and no API stage. *)
Lemma create_config_obj_params_witness :
  (exists app w2,
     load_chalice_app sample_env profile_factory
       (snd (load_project_config sample_env profile_factory
               (world_with_path ["/lib"]))) = (Ok app, w2) /\
     user_provided_params dev_config !! "chalice_app" = Some app) /\
  user_provided_params dev_config !! "autogen_policy" = Some (PyBool false) /\
  user_provided_params dev_config !! "profile" = Some (PyStr "prod") /\
  user_provided_params dev_config !! "api_gateway_stage" = None /\
  dom (user_provided_params dev_config)
    ⊆ {["chalice_app"; "autogen_policy"; "profile"; "api_gateway_stage"]} /\
  default_params dev_config !! "project_dir" = Some (PyStr "/proj") /\
  default_params dev_config !! "autogen_policy" = Some (PyBool true) /\
  dom (default_params dev_config) = {["project_dir"; "autogen_policy"]}.
Proof.
  apply (create_config_obj_params sample_env profile_factory (PyStr "dev")
           (PyBool false) PyNone (world_with_path ["/lib"]) dev_world).
  vm_compute. reflexivity.
Defined.

(** C8.  Suppose the configuration file was read.  If validation fails,
    [create_config_obj] fails with the same error in the world reached by
    reading the file: since then nothing was imported, no [Config] was
    built and [sys.path] was not touched.  If validation passes, the
    application is imported next, whatever the arguments: the import is
    the next event, and either it fails and so does the call, or its
    result is stored under [chalice_app] and the [Config] is built. *)
Theorem create_config_obj_order (env : Env) (self : CLIFactory)
    (stage ap ags : PyVal) (w : World) (cfg : PyVal) :
  fst (load_project_config env self w) = Ok cfg ->
  (forall e, _validate_config_from_disk cfg = Raise e ->
     create_config_obj env self stage ap ags w
       = (Raise e, snd (load_project_config env self w)) /\
     trace (snd (load_project_config env self w))
       = trace w ++ [EvOpen (config_path self)] /\
     sys_path (snd (load_project_config env self w)) = sys_path w) /\
  (_validate_config_from_disk cfg = Ok tt ->
     exists l,
       trace (snd (create_config_obj env self stage ap ags w))
         = trace w ++ [EvOpen (config_path self);
                       EvImport (adjusted_path env self (sys_path w))] ++ l /\
       match fst (load_chalice_app env self
                    (snd (load_project_config env self w))) with
       | Ok app =>
           l = [EvConfig] /\
           exists c, fst (create_config_obj env self stage ap ags w) = Ok c /\
                     user_provided_params c !! "chalice_app" = Some app /\
                     config_from_disk c = cfg
       | Raise e =>
           l = [] /\ fst (create_config_obj env self stage ap ags w) = Raise e
       end).
Proof.
  intros Hcfg. rewrite create_config_obj_cases. cbv zeta. rewrite Hcfg.
  split.
  - intros e He. rewrite He. rewrite load_project_config_cases.
    now repeat split.
  - intros Hv. rewrite Hv. rewrite load_chalice_app_cases.
    rewrite load_project_config_cases.
    cbn [fst snd emit sys_path trace debug_loggers log_filters].
    destruct (import_app env (adjusted_path env self (sys_path w)))
      as [app|e].
    + destruct (py_getattr app "app") as [a|e].
      * exists [EvConfig]. cbn [fst snd emit trace].
        split; [now rewrite <- !app_assoc |].
        split; [reflexivity |]. eexists. split; [reflexivity |].
        cbn [user_provided_params config_from_disk].
        split; [| reflexivity].
        case_optional_params; by simplify_map_eq.
      * exists []. cbn [fst snd trace].
        split; [now rewrite <- !app_assoc | now split].
    + exists []. destruct e; cbn [fst snd trace];
        (split; [now rewrite <- !app_assoc | now split]).
Qed.

(** [create_config_obj_order] for a configuration of version 3.0. *)
Lemma create_config_obj_order_witness :
  create_config_obj version3_env sample_factory (PyStr "dev") PyNone PyNone
    (world_with_path ["/lib"])
    = (Raise (UnknownConfigFileVersion (PyStr "3.0")),
       snd (load_project_config version3_env sample_factory
              (world_with_path ["/lib"]))) /\
  trace (snd (load_project_config version3_env sample_factory
                (world_with_path ["/lib"])))
    = [] ++ [EvOpen (config_path sample_factory)] /\
  sys_path (snd (load_project_config version3_env sample_factory
                   (world_with_path ["/lib"]))) = ["/lib"].
Proof.
  apply (proj1 (create_config_obj_order version3_env sample_factory
                  (PyStr "dev") PyNone PyNone (world_with_path ["/lib"])
                  (PyDict {["version" := PyStr "3.0"]}) eq_refl)
           (UnknownConfigFileVersion (PyStr "3.0"))).
  vm_compute. reflexivity.
Defined.

(** C2, as amended.  Every [OSError] raised while reading the
    configuration file is replaced by the single [RuntimeError] that asks
    whether this is a chalice project.  An error raised by
    [create_config_obj] is that one, or [UnknownConfigFileVersion], or the
    [RuntimeError] built from a [SyntaxError] of the import; or it is an
    error that is not translated and reaches the caller as it was raised:
    an error other than [OSError] from reading or decoding the file, an
    [AttributeError], [TypeError] or [OverflowError] of the validation, an
    exception of the import other than [SyntaxError], or the
    [AttributeError] of a module without [app]. *)
Theorem create_config_obj_errors (env : Env) (self : CLIFactory)
    (stage ap ags : PyVal) (w : World) :
  (forall m, fst (load_project_config env self w) = Raise (OSError m) ->
     fst (create_config_obj env self stage ap ags w)
       = Raise (RuntimeError config_unreadable)) /\
  (forall e, fst (create_config_obj env self stage ap ags w) = Raise e ->
     (e = RuntimeError config_unreadable /\
      exists m, fst (load_project_config env self w) = Raise (OSError m)) \/
     (exists v, e = UnknownConfigFileVersion v) \/
     (exists se,
        e = RuntimeError (syntax_error_message env se) /\
        import_app env (adjusted_path env self (sys_path w))
          = Raise (SyntaxError se)) \/
     (fst (load_project_config env self w) = Raise e /\
      is_OSError e = false) \/
     (exists cfg,
        fst (load_project_config env self w) = Ok cfg /\
        _validate_config_from_disk cfg = Raise e /\
        (e = float_type_error \/ e = int_overflow \/
         e = AttributeError "object has no attribute get")) \/
     (import_app env (adjusted_path env self (sys_path w)) = Raise e /\
      is_SyntaxError e = false) \/
     (exists app,
        import_app env (adjusted_path env self (sys_path w)) = Ok app /\
        py_getattr app "app" = Raise e)).
Proof.
  rewrite create_config_obj_cases. cbv zeta.
  destruct (fst (load_project_config env self w)) as [cfg|e0] eqn:Hload.
  - split; [intros m H; discriminate |].
    destruct (_validate_config_from_disk cfg) as [u|e1] eqn:Hv.
    + pose proof (load_chalice_app_raises env self
                    (snd (load_project_config env self w))) as Hall.
      rewrite load_project_config_cases in Hall.
      cbn [snd emit sys_path] in Hall.
      rewrite load_project_config_cases. cbn [snd].
      destruct (load_chalice_app env self (emit (EvOpen (config_path self)) w))
        as [[app|e2] w2]; cbn [fst] in *; intros e He; [discriminate |].
      injection He as <-.
      destruct (Hall e2 eq_refl) as [(se & H1 & H2) | [H | H]].
      * right. right. left. now exists se.
      * do 5 right. now left.
      * do 6 right. exact H.
    + cbn [fst]. intros e He. injection He as <-.
      destruct (validate_config_raises cfg e1 Hv) as [H | H].
      * right. now left.
      * do 4 right. left. now exists cfg.
  - cbn [fst]. split.
    + intros m H. injection H as ->. reflexivity.
    + intros e He. destruct (is_OSError e0) eqn:Hos.
      * injection He as <-. left. split; [reflexivity |].
        destruct e0; try discriminate. now eexists.
      * injection He as <-. do 3 right. left. now split.
Qed.

(** [create_config_obj_errors] for a project without configuration
    file. *)
Lemma create_config_obj_errors_witness :
  fst (create_config_obj missing_file_env sample_factory (PyStr "dev")
         PyNone PyNone (world_with_path ["/lib"]))
  = Raise (RuntimeError config_unreadable).
Proof.
  apply (proj1 (create_config_obj_errors missing_file_env sample_factory
                  (PyStr "dev") PyNone PyNone (world_with_path ["/lib"]))
           "No such file or directory").
  reflexivity.
Defined.

(** C2 as stated fails when [app.py] imports a module that is not
    installed: the [ImportError] reaches the caller, and it is none of the
    three kinds. *)
Lemma create_config_obj_errors_counterexample :
  fst (create_config_obj import_error_env sample_factory (PyStr "dev")
         PyNone PyNone (world_with_path ["/lib"]))
  = Raise (ImportError "No module named requests").
Proof. reflexivity. Qed.

(** * Part IV: further properties *)

(** ** Versions written as integers

    [float] on a string of digits: no underscore, no white space, no
    sign, no exponent; the value is the number the digits spell, rounded
    to the nearest double. *)

Lemma digit_char_facts (c : ascii) :
  is_digit c = true ->
  is_underscore c = false /\ is_space c = false /\
  (char_code c =? 45) = false /\ (char_code c =? 43) = false /\
  lower c = c /\ Ascii.eqb c "i" = false /\ Ascii.eqb c "n" = false.
Proof.
  destruct c as [[] [] [] [] [] [] [] []]; vm_compute; intros H;
    try discriminate H; repeat split.
Qed.

Lemma strip_underscores_digits (l : list ascii) : forall prev,
  forallb is_digit l = true ->
  (forall p, prev = Some p -> is_underscore p = false) ->
  strip_underscores prev l = Some l.
Proof.
  induction l as [|c l IH]; intros prev Hl Hp; cbn [strip_underscores].
  - destruct prev as [p|]; [| reflexivity]. now rewrite (Hp p eq_refl).
  - cbn [forallb] in Hl. apply andb_prop in Hl as [Hc Hl].
    destruct (digit_char_facts c Hc) as (Hu & _).
    rewrite Hu, Hc. cbn [negb]. cbv zeta.
    assert (Hr : strip_underscores (Some c) l = Some l).
    { apply IH; [assumption |]. intros p Hs. injection Hs as <-. exact Hu. }
    rewrite Hr. destruct prev; rewrite ?andb_false_r; reflexivity.
Qed.

Lemma drop_spaces_digit (c : ascii) (l : list ascii) :
  is_digit c = true -> drop_spaces (c :: l) = c :: l.
Proof.
  intros Hc. destruct (digit_char_facts c Hc) as (_ & Hs & _).
  cbn [drop_spaces]. now rewrite Hs.
Qed.

Lemma strip_digits (l : list ascii) :
  forallb is_digit l = true -> strip l = l.
Proof.
  intros Hl. unfold strip.
  assert (Hd : forall k, forallb is_digit k = true -> drop_spaces k = k).
  { intros [|c k] Hk; [reflexivity |]. cbn [forallb] in Hk.
    apply andb_prop in Hk as [Hc _]. now apply drop_spaces_digit. }
  rewrite (Hd l Hl). rewrite Hd.
  - apply rev_involutive.
  - apply forallb_forall. intros x Hx. apply in_rev in Hx.
    now apply (proj1 (forallb_forall is_digit l) Hl).
Qed.

Lemma span_digits_all (l : list ascii) :
  forallb is_digit l = true -> span_digits l = (l, []).
Proof.
  induction l as [|c l IH]; intros Hl; [reflexivity |].
  cbn [forallb] in Hl. apply andb_prop in Hl as [Hc Hl].
  cbn [span_digits]. now rewrite Hc, (IH Hl).
Qed.

Lemma drop_spaces_head (l : list ascii) :
  match l with [] => True | c :: _ => is_space c = false end ->
  drop_spaces l = l.
Proof. destruct l as [|c l]; [reflexivity |]. cbn. now intros ->. Qed.

Lemma parse_body_digits (neg : bool) (l : list ascii) :
  l <> [] -> forallb is_digit l = true ->
  match parse_inf_or_nan neg l with
  | Some f => Some f
  | None => parse_decimal neg l
  end = Some (float_of_decimal neg (digits_value l) 0).
Proof.
  intros Hne Hl. destruct l as [|c l]; [congruence |].
  pose proof Hl as Hl'. cbn [forallb] in Hl'. apply andb_prop in Hl' as [Hc _].
  destruct (digit_char_facts c Hc) as (_ & _ & _ & _ & Hlow & Hi & Hn).
  unfold parse_inf_or_nan. cbn [map string_of_list_ascii]. rewrite Hlow.
  cbn [String.eqb]. rewrite Hi, Hn. cbn [andb orb].
  unfold parse_decimal. rewrite (span_digits_all (c :: l) Hl).
  rewrite app_nil_r. cbn [parse_exponent length Z.of_nat Z.sub]. reflexivity.
Qed.

Lemma float_of_string_digits (l : list ascii) :
  l <> [] -> forallb is_digit l = true ->
  float_of_string (string_of_list_ascii l)
  = Some (float_of_decimal false (digits_value l) 0).
Proof.
  intros Hne Hl. unfold float_of_string.
  rewrite list_ascii_of_string_of_list_ascii.
  rewrite (strip_underscores_digits l None Hl) by discriminate.
  rewrite (strip_digits l Hl).
  destruct l as [|c l]; [congruence |].
  pose proof Hl as Hl'. cbn [forallb] in Hl'. apply andb_prop in Hl' as [Hc _].
  destruct (digit_char_facts c Hc) as (_ & _ & H45 & H43 & _).
  cbn [parse_sign]. rewrite H45, H43.
  now apply parse_body_digits.
Qed.

Lemma float_of_string_minus_digits (l : list ascii) :
  l <> [] -> forallb is_digit l = true ->
  float_of_string (string_of_list_ascii (minus_sign :: l))
  = Some (float_of_decimal true (digits_value l) 0).
Proof.
  intros Hne Hl. unfold float_of_string.
  rewrite list_ascii_of_string_of_list_ascii.
  cbn [strip_underscores]. change (is_underscore minus_sign) with false.
  cbv iota zeta.
  rewrite (strip_underscores_digits l (Some minus_sign) Hl)
    by (intros p Hp; now injection Hp as <-).
  cbn [option_map]. unfold strip.
  rewrite (drop_spaces_head (minus_sign :: l)) by reflexivity.
  rewrite drop_spaces_head.
  - rewrite rev_involutive. cbn [parse_sign].
    change (char_code minus_sign =? 45) with true. cbv iota.
    now apply parse_body_digits.
  - cbn [rev]. destruct (rev l) as [|c k] eqn:Hr.
    + apply (f_equal (@rev ascii)) in Hr. rewrite rev_involutive in Hr.
      now destruct Hne.
    + cbn [app].
      assert (Hc : is_digit c = true).
      { apply (proj1 (forallb_forall is_digit l) Hl). apply in_rev.
        rewrite Hr. now left. }
      now destruct (digit_char_facts c Hc) as (_ & Hs & _).
Qed.

(** A positive integer rounded to a double is above 2.0 exactly when the
    integer is: rounding is monotone and 2 is a double. *)
Lemma binary_round_gt_two (p : positive) :
  float_gt (binary_round prec64 emax64 false p 0) float_two
  = negb (Zpos p <=? 2).
Proof.
  destruct (Z_lt_le_dec (Zpos p) 4) as [Hlt|Hge].
  - assert (Hp : (p = 1 \/ p = 2 \/ p = 3)%positive) by lia.
    destruct Hp as [-> | [-> | ->]]; vm_compute; reflexivity.
  - replace (Zpos p <=? 2) with false by (symmetry; apply Z.leb_gt; lia).
    assert (Hd : 3 <= Zpos (digits2_pos p)).
    { pose proof (digits2_pos_upper p) as Hu.
      destruct (Z_lt_le_dec (Zpos (digits2_pos p)) 3) as [Hl|]; [| assumption].
      assert (H4 : 2 ^ Zpos (digits2_pos p) <= 2 ^ 2)
        by (apply Z.pow_le_mono_r; lia).
      change (2 ^ 2) with 4 in H4. lia. }
    destruct (binary_round_int_shape false p) as [H | (m & e & H & He)];
      rewrite H; [reflexivity |].
    unfold float_gt, SFltb, float_two. cbn [SFcompare negb].
    replace (-51 ?= e) with Lt by (symmetry; apply Z.compare_lt_iff; lia).
    reflexivity.
Qed.

Lemma float_of_decimal_integer_gt_two (n : N) :
  float_gt (float_of_decimal false n 0) float_two = negb (Z.of_N n <=? 2).
Proof.
  destruct n as [|p]; [reflexivity |].
  unfold float_of_decimal. cbn [Z.leb Z.compare].
  change (Z.to_pos (10 ^ 0)) with 1%positive. rewrite Pos.mul_1_r.
  apply binary_round_gt_two.
Qed.

Lemma float_of_decimal_negative_le_two (n : N) :
  float_gt (float_of_decimal true n 0) float_two = false.
Proof.
  destruct n as [|p]; [reflexivity |].
  unfold float_of_decimal. cbn [Z.leb Z.compare].
  change (Z.to_pos (10 ^ 0)) with 1%positive. rewrite Pos.mul_1_r.
  destruct (binary_round_int_shape true p) as [H | (m & e & H & _)];
    rewrite H; reflexivity.
Qed.

(** X1.  A version written as a non-empty string of decimal digits,
    leading zeros allowed and of any length, is accepted exactly when the
    number it spells is at most 2; above 2 validation raises
    [UnknownConfigFileVersion] on that string.  No digit string makes
    [float] fail or overflow into an uncaught error. *)
Theorem validate_digit_version (d : gmap string PyVal) (l : list ascii) :
  l <> [] -> forallb is_digit l = true ->
  d !! "version" = Some (PyStr (string_of_list_ascii l)) ->
  (_validate_config_from_disk (PyDict d) = Ok tt <->
     (digits_value l <= 2)%N) /\
  ((2 < digits_value l)%N ->
     _validate_config_from_disk (PyDict d)
     = Raise (UnknownConfigFileVersion (PyStr (string_of_list_ascii l)))).
Proof.
  intros Hne Hl Hv. rewrite validate_config_cases, Hv. cbn [py_float].
  rewrite (float_of_string_digits l Hne Hl).
  rewrite float_of_decimal_integer_gt_two.
  destruct (Z.of_N (digits_value l) <=? 2) eqn:Hz; cbn [negb].
  - apply Z.leb_le in Hz. split; [split; [lia | reflexivity] | lia].
  - apply Z.leb_gt in Hz. split; [split; [discriminate | lia] | reflexivity].
Qed.

(** [validate_digit_version] at ["007"]: the leading zeros do not make
    it version 0. *)
Lemma validate_digit_version_witness :
  _validate_config_from_disk (PyDict {["version" := PyStr "007"]})
  = Raise (UnknownConfigFileVersion (PyStr "007")).
Proof.
  refine (proj2 (validate_digit_version {["version" := PyStr "007"]}
                   (list_ascii_of_string "007") _ _ _) _).
  - discriminate.
  - reflexivity.
  - vm_compute. reflexivity.
  - vm_compute. reflexivity.
Defined.

(** The decimal numeral [str] prints for an int, read back by
    [digits_value]. *)
Lemma uint_chars_digits (u : Decimal.uint) :
  forallb is_digit (uint_chars u) = true.
Proof. unfold uint_chars. induction u; cbn; auto. Qed.

Lemma uint_chars_value_acc (u : Decimal.uint) : forall a : Decimal.uint,
  fold_left (fun acc c => (10 * acc + Z.to_N (char_code c - 48))%N)
    (uint_chars u) (Unsigned.of_lu a)
  = Unsigned.of_lu (Decimal.revapp u a).
Proof.
  unfold uint_chars.
  induction u as [|u IH|u IH|u IH|u IH|u IH|u IH|u IH|u IH|u IH|u IH];
    intros a; [reflexivity | ..];
    cbn [NilEmpty.string_of_uint list_ascii_of_string fold_left Decimal.revapp];
    rewrite <- IH; f_equal; cbn [Unsigned.of_lu];
    match goal with
    | |- (_ + Z.to_N ?x)%N = _ =>
        let v := eval vm_compute in (Z.to_N x) in
        change (Z.to_N x) with v
    end; lia.
Qed.

Lemma uint_chars_value (p : positive) :
  digits_value (uint_chars (Pos.to_uint p)) = Npos p.
Proof.
  unfold digits_value.
  change 0%N with (Unsigned.of_lu Decimal.Nil).
  rewrite uint_chars_value_acc.
  change (Decimal.revapp (Pos.to_uint p) Decimal.Nil)
    with (Decimal.rev (Pos.to_uint p)).
  rewrite <- Unsigned.of_uint_alt. apply Unsigned.of_to.
Qed.

Lemma uint_chars_nonempty (p : positive) : uint_chars (Pos.to_uint p) <> [].
Proof.
  unfold uint_chars. pose proof (Unsigned.to_uint_nonnil p) as Hn.
  destruct (Pos.to_uint p); [congruence | ..]; discriminate.
Qed.

Lemma py_str_int_chars (so : PyVal -> string) (z : Z) :
  py_str so (PyInt z)
  = string_of_list_ascii
      (match z with
       | Z0 => uint_chars (Decimal.D0 Decimal.Nil)
       | Zpos p => uint_chars (Pos.to_uint p)
       | Zneg p => minus_sign :: uint_chars (Pos.to_uint p)
       end).
Proof.
  unfold uint_chars. cbn [py_str]. destruct z as [|p|p]; [reflexivity | |];
    cbn [Z.to_int NilZero.string_of_int];
    pose proof (Unsigned.to_uint_nonnil p) as Hn;
    destruct (Pos.to_uint p) eqn:Hu; try congruence;
    cbn [NilZero.string_of_uint string_of_list_ascii];
    now rewrite string_of_list_ascii_of_string.
Qed.

(** X2.  A version that is the string [str(z)] of an integer [z],
    negative ones included, is accepted exactly when [z <= 2]; for
    [z > 2] validation raises [UnknownConfigFileVersion] on that string.
    Unlike the int [z] itself, its string never overflows. *)
Theorem validate_int_literal_version (so : PyVal -> string)
    (d : gmap string PyVal) (z : Z) :
  d !! "version" = Some (PyStr (py_str so (PyInt z))) ->
  (_validate_config_from_disk (PyDict d) = Ok tt <-> z <= 2) /\
  (2 < z ->
   _validate_config_from_disk (PyDict d)
   = Raise (UnknownConfigFileVersion (PyStr (py_str so (PyInt z))))).
Proof.
  intros Hv. rewrite validate_config_cases, Hv. cbn [py_float].
  rewrite py_str_int_chars. destruct z as [|p|p].
  - vm_compute. split; [split; [discriminate | reflexivity] | discriminate].
  - rewrite (float_of_string_digits _ (uint_chars_nonempty p)
               (uint_chars_digits _)).
    rewrite float_of_decimal_integer_gt_two, uint_chars_value.
    cbn [Z.of_N].
    destruct (Zpos p <=? 2) eqn:Hz; cbn [negb].
    + apply Z.leb_le in Hz. split; [split; [lia | reflexivity] | lia].
    + apply Z.leb_gt in Hz.
      split; [split; [discriminate | lia] | reflexivity].
  - rewrite (float_of_string_minus_digits _ (uint_chars_nonempty p)
               (uint_chars_digits _)).
    rewrite float_of_decimal_negative_le_two.
    split; [split; [lia | reflexivity] | lia].
Qed.

(** [validate_int_literal_version] at [-1] and at [10]. *)
Lemma validate_int_literal_version_witness :
  _validate_config_from_disk (PyDict {["version" := PyStr "-1"]}) = Ok tt /\
  _validate_config_from_disk (PyDict {["version" := PyStr "10"]})
  = Raise (UnknownConfigFileVersion (PyStr "10")).
Proof.
  split.
  - refine (proj2 (proj1 (validate_int_literal_version (fun _ => EmptyString)
                            {["version" := PyStr "-1"]} (-1) _)) _).
    + vm_compute. reflexivity.
    + lia.
  - refine (proj2 (validate_int_literal_version (fun _ => EmptyString)
                     {["version" := PyStr "10"]} 10 _) _).
    + vm_compute. reflexivity.
    + lia.
Defined.

(** ** The logging filter: failures and what is hidden *)

(** X3.  The filter returns (rather than raises) exactly when the message
    is a str and, if it starts with ["Making request"], the positional
    arguments have a first element with a [name], and, if that name is
    one of the two upload operations, the arguments are a tuple.  Every
    other record makes [filter] raise. *)
Theorem filter_returns_iff (r : LogRecord) :
  is_Ok (LargeRequestBodyFilter.filter r) = true <->
  exists m, msg r = PyStr m /\
    (String.prefix "Making request" m = true ->
     exists a0 n,
       py_getitem0 (args r) = Ok a0 /\ py_getattr a0 "name" = Ok n /\
       (py_in_strs n lambda_upload_names = true ->
        exists l, args r = PyTuple l)).
Proof.
  unfold LargeRequestBodyFilter.filter. fold lambda_upload_names.
  destruct (msg r) as [| | | |m| | | |] eqn:Hmsg; cbn [py_startswith rbind is_Ok];
    try (split; [discriminate | intros (m' & Hm' & _); discriminate]).
  destruct (String.prefix "Making request" m) eqn:Hp.
  2:{ split; [| reflexivity]. intros _. exists m. split; [reflexivity |].
      congruence. }
  destruct (py_getitem0 (args r)) as [a0|e0] eqn:H0; cbn [rbind is_Ok].
  2:{ split; [discriminate |].
      intros (m' & Hm' & H). injection Hm' as <-.
      destruct (H Hp) as (a & n & Ha & _). congruence. }
  destruct (py_getattr a0 "name") as [n|e1] eqn:Hn; cbn [rbind is_Ok].
  2:{ split; [discriminate |].
      intros (m' & Hm' & H). injection Hm' as <-.
      destruct (H Hp) as (a & n & Ha & Hn' & _).
      injection Ha as <-. congruence. }
  destruct (py_in_strs n lambda_upload_names) eqn:Hin.
  2:{ split; [| reflexivity]. intros _. exists m. split; [reflexivity |].
      intros _. exists a0, n. split; [reflexivity |].
      split; [assumption | congruence]. }
  destruct (args r) as [| | | | |l|l| |] eqn:Ha;
    cbn [py_init_plus_tuple rbind is_Ok];
    try (split; [discriminate |];
         intros (m' & Hm' & H); injection Hm' as <-;
         destruct (H Hp) as (a & n' & Ha' & Hn' & Hl);
         injection Ha' as <-; rewrite Hn in Hn'; injection Hn' as <-;
         destruct (Hl Hin) as (l' & Hl'); discriminate).
  all: try discriminate.
  split; [| reflexivity]. intros _. exists m. split; [reflexivity |].
  intros _. exists a0, n. split; [reflexivity |].
  split; [assumption |]. intros _. now exists l.
Qed.

(** X4.  On a record of an upload operation with at least two positional
    arguments, the result of the filter does not depend on the last
    argument: two records that differ only there are filtered to the same
    record, so nothing of the request body is left in it. *)
Theorem filter_hides_last_argument (m : string) (fields : gmap string PyVal)
    (a0 : PyVal) (init : list PyVal) (x1 x2 n : PyVal) :
  String.prefix "Making request" m = true ->
  py_getattr a0 "name" = Ok n ->
  py_in_strs n lambda_upload_names = true ->
  LargeRequestBodyFilter.filter
    {| msg := PyStr m; args := PyTuple (a0 :: init ++ [x1]);
       record_fields := fields |}
  = LargeRequestBodyFilter.filter
      {| msg := PyStr m; args := PyTuple (a0 :: init ++ [x2]);
         record_fields := fields |}.
Proof.
  intros Hm Hn Hin. unfold LargeRequestBodyFilter.filter.
  fold lambda_upload_names.
  cbn [msg args py_startswith rbind py_getitem0]. rewrite Hm, Hn.
  cbn [rbind]. rewrite Hin. cbn [py_init_plus_tuple rbind set_args msg args
                                  record_fields].
  change (a0 :: init ++ [x1]) with ((a0 :: init) ++ [x1]).
  change (a0 :: init ++ [x2]) with ((a0 :: init) ++ [x2]).
  now rewrite !removelast_last.
Qed.

(** [filter_hides_last_argument] at two [CreateFunction] calls with
    different packages. *)
Lemma filter_hides_last_argument_witness :
  LargeRequestBodyFilter.filter upload_record
  = LargeRequestBodyFilter.filter upload_record_other.
Proof.
  refine (filter_hides_last_argument
            "Making request for %s (verify: %s) with params: %s"
            {["name" := PyStr "botocore.endpoint"]}
            create_function_op [PyBool true]
            (PyStr "UEsDBBQAAAAI") (PyStr "UEsDBAoAAAAA")
            (PyStr "CreateFunction") _ _ _).
  - vm_compute. reflexivity.
  - vm_compute. reflexivity.
  - vm_compute. reflexivity.
Defined.

(** X5.  On a record of an upload operation with a single positional
    argument the filter replaces the operation itself by the placeholder;
    filtering the result again raises [AttributeError], because the
    placeholder is a str and has no [name]. *)
Theorem filter_single_argument_twice (m : string)
    (fields : gmap string PyVal) (a0 n : PyVal) :
  String.prefix "Making request" m = true ->
  py_getattr a0 "name" = Ok n ->
  py_in_strs n lambda_upload_names = true ->
  LargeRequestBodyFilter.filter
    {| msg := PyStr m; args := PyTuple [a0]; record_fields := fields |}
  = Ok (true, {| msg := PyStr m; args := PyTuple [PyStr omitted];
                 record_fields := fields |}) /\
  LargeRequestBodyFilter.filter
    {| msg := PyStr m; args := PyTuple [PyStr omitted];
       record_fields := fields |}
  = Raise (AttributeError "object has no attribute name").
Proof.
  intros Hm Hn Hin. unfold LargeRequestBodyFilter.filter.
  fold lambda_upload_names.
  cbn [msg args py_startswith rbind py_getitem0]. rewrite Hm, Hn.
  cbn [rbind]. rewrite Hin. split; reflexivity.
Qed.

(** [filter_single_argument_twice] at an [UpdateFunctionCode] call. *)
Lemma filter_single_argument_twice_witness :
  LargeRequestBodyFilter.filter
    {| msg := PyStr "Making request for %s";
       args := PyTuple [PyObject "OperationModel"
                          {["name" := PyStr "UpdateFunctionCode"]}];
       record_fields := ∅ |}
  = Ok (true, single_arg_record_redacted).
Proof.
  refine (proj1 (filter_single_argument_twice "Making request for %s" ∅
                   (PyObject "OperationModel"
                      {["name" := PyStr "UpdateFunctionCode"]})
                   (PyStr "UpdateFunctionCode") _ _ _)).
  - vm_compute. reflexivity.
  - vm_compute. reflexivity.
  - vm_compute. reflexivity.
Defined.

(** ** Sessions: every effect *)

(** X6.  [CLIFactory.create_botocore_session] passes the factory's
    profile and debug flag on.  If the botocore constructor raises, the
    error reaches the caller and nothing was changed.  Otherwise the
    session is the constructed one with the chalice user agent; with
    [debug] the root debug logger is switched on and exactly one filter
    is added to [botocore.endpoint], without [debug] logging is left
    alone; [sys.path] and the file system are never touched. *)
Theorem create_botocore_session_effects (env : Env) (self : CLIFactory)
    (w : World) :
  match botocore_Session env (profile self) with
  | Raise e =>
      CLIFactory_create_botocore_session env self w = (Raise e, w)
  | Ok s0 =>
      fst (CLIFactory_create_botocore_session env self w)
        = Ok (_add_chalice_user_agent env s0) /\
      snd (CLIFactory_create_botocore_session env self w)
        = {| sys_path := sys_path w;
             debug_loggers :=
               debug_loggers w ++ (if debug self then [EmptyString] else []);
             log_filters :=
               log_filters w ++
               (if debug self
                then [("botocore.endpoint", LargeRequestBodyFilter_object)]
                else []);
             trace := trace w |}
  end.
Proof.
  unfold CLIFactory_create_botocore_session, create_botocore_session,
    bind, lift.
  destruct (botocore_Session env (profile self)) as [s0|e]; [| reflexivity].
  destruct w as [sp dl lf tr].
  destruct (debug self); cbn; rewrite ?app_nil_r; split; reflexivity.
Qed.

(** ** Loading the application: the search path *)


(** ** The paths derived from the project directory *)




(** ** Building the configuration object: success, effects, arguments *)

(** X9.  [create_config_obj] returns a configuration exactly when the
    configuration file can be read, its content decodes, the decoded
    value passes validation, [app.py] imports under the adjusted search
    path, and the imported module has an [app] attribute. *)
Theorem create_config_obj_succeeds_iff (env : Env) (self : CLIFactory)
    (stage ap ags : PyVal) (w : World) :
  is_Ok (fst (create_config_obj env self stage ap ags w)) = true <->
  exists content cfg m app,
    read_file env (config_path self) = Ok content /\
    json_loads env content = Ok cfg /\
    _validate_config_from_disk cfg = Ok tt /\
    import_app env (adjusted_path env self (sys_path w)) = Ok m /\
    py_getattr m "app" = Ok app.
Proof.
  rewrite create_config_obj_cases, load_project_config_cases.
  cbv zeta. cbn [fst snd].
  destruct (read_file env (config_path self)) as [content|e] eqn:Hr;
    cbn [rbind].
  2:{ cbn [fst is_Ok]. split; [discriminate |].
      intros (c & ? & ? & ? & H & _). discriminate. }
  destruct (json_loads env content) as [cfg|e] eqn:Hj.
  2:{ cbn [fst is_Ok]. split; [discriminate |].
      intros (c & ? & ? & ? & H & Hj' & _). injection H as <-. congruence. }
  destruct (_validate_config_from_disk cfg) as [[]|e] eqn:Hv.
  2:{ cbn [fst is_Ok]. split; [discriminate |].
      intros (c & ? & ? & ? & H & Hj' & Hv' & _). injection H as <-.
      rewrite Hj in Hj'. injection Hj' as <-. congruence. }
  rewrite load_chalice_app_cases. cbn [emit sys_path].
  destruct (import_app env (adjusted_path env self (sys_path w)))
    as [m|e] eqn:Hi.
  - destruct (py_getattr m "app") as [app|e] eqn:Hg; cbn [fst is_Ok].
    + split; [| reflexivity]. intros _. now exists content, cfg, m, app.
    + split; [discriminate |].
      intros (? & ? & m' & ? & _ & _ & _ & Hm & Hg'). injection Hm as <-.
      congruence.
  - split.
    + destruct e; cbn [fst is_Ok]; discriminate.
    + intros (? & ? & ? & ? & _ & _ & _ & Hm & _). discriminate.
Qed.

(** X10.  A configuration file whose JSON root is not an object (an
    array, a string, a number, [null]) makes [create_config_obj] raise
    the [AttributeError] of the missing [get] method, not a
    [RuntimeError] and not [UnknownConfigFileVersion]; the file has been
    opened, [app.py] is not imported and [sys.path] is not changed. *)
Theorem create_config_obj_non_dict (env : Env) (self : CLIFactory)
    (stage ap ags : PyVal) (w : World) (content : string) (cfg : PyVal) :
  read_file env (config_path self) = Ok content ->
  json_loads env content = Ok cfg ->
  (forall d, cfg <> PyDict d) ->
  create_config_obj env self stage ap ags w
  = (Raise (AttributeError "object has no attribute get"),
     emit (EvOpen (config_path self)) w).
Proof.
  intros Hr Hj Hd. rewrite create_config_obj_cases, load_project_config_cases.
  cbv zeta. cbn [fst snd]. rewrite Hr. cbn [rbind]. rewrite Hj.
  destruct cfg; try reflexivity. now destruct (Hd d).
Qed.

(** [create_config_obj_non_dict] for a file that holds [[]]. *)
Lemma create_config_obj_non_dict_witness :
  create_config_obj array_config_env sample_factory (PyStr "dev")
    PyNone PyNone (world_with_path ["/lib"])
  = (Raise (AttributeError "object has no attribute get"),
     {| sys_path := ["/lib"]; debug_loggers := []; log_filters := [];
        trace := [EvOpen "/proj/.chalice/config.json"] |}).
Proof.
  refine (create_config_obj_non_dict array_config_env sample_factory
            (PyStr "dev") PyNone PyNone (world_with_path ["/lib"])
            "[]" (PyList []) _ _ _).
  - reflexivity.
  - reflexivity.
  - intros d H. discriminate H.
Defined.

(** X11.  The three arguments of [create_config_obj] play no part in
    what it does to the world or in whether and how it fails: two calls
    in the same world that differ only in the stage name, the policy flag
    and the gateway stage leave the same world and raise the same error,
    and when they succeed the configurations agree on the file layer, the
    default layer, the application and the profile. *)
Theorem create_config_obj_arguments (env : Env) (self : CLIFactory)
    (stage ap ags stage' ap' ags' : PyVal) (w : World) :
  snd (create_config_obj env self stage ap ags w)
    = snd (create_config_obj env self stage' ap' ags' w) /\
  (forall e,
     fst (create_config_obj env self stage ap ags w) = Raise e <->
     fst (create_config_obj env self stage' ap' ags' w) = Raise e) /\
  (forall c c',
     fst (create_config_obj env self stage ap ags w) = Ok c ->
     fst (create_config_obj env self stage' ap' ags' w) = Ok c' ->
     config_from_disk c = config_from_disk c' /\
     default_params c = default_params c' /\
     user_provided_params c !! "chalice_app"
       = user_provided_params c' !! "chalice_app" /\
     user_provided_params c !! "profile"
       = user_provided_params c' !! "profile").
Proof.
  rewrite !create_config_obj_cases. cbv zeta.
  destruct (fst (load_project_config env self w)) as [cfg|e0].
  2:{ cbn [fst snd]. repeat split; try tauto; discriminate. }
  destruct (_validate_config_from_disk cfg) as [u|e1].
  2:{ cbn [fst snd]. repeat split; try tauto; discriminate. }
  destruct (load_chalice_app env self (snd (load_project_config env self w)))
    as [[app|e2] w2]; cbn [fst snd].
  2:{ repeat split; try tauto; discriminate. }
  split; [reflexivity |]. split; [split; discriminate |].
  intros c c' [= <-] [= <-].
  cbn [config_from_disk default_params user_provided_params].
  split; [reflexivity | split; [reflexivity |]].
  split; case_optional_params; by simplify_map_eq.
Qed.


(** ** The message of [UnknownConfigFileVersion] *)

Lemma append_cancel_r (a b c : string) : a +:+ c = b +:+ c -> a = b.
Proof.
  revert b. induction a as [|x a IH]; intros [|y b] H.
  - reflexivity.
  - apply (f_equal String.length) in H. rewrite !append_length in H.
    cbn [String.length] in H. lia.
  - apply (f_equal String.length) in H. rewrite !append_length in H.
    cbn [String.length] in H. lia.
  - rewrite !append_cons in H. injection H as -> H. f_equal. now apply IH.
Qed.

Lemma append_cancel_l (a b c : string) : a +:+ b = a +:+ c -> b = c.
Proof.
  induction a as [|x a IH]; [trivial |].
  rewrite !append_cons. intros [= H]. now apply IH.
Qed.

(** X13.  The message of [UnknownConfigFileVersion] tells the refused
    version strings apart: two strings give the same message only if
    they are the same string, quotes and spaces inside them included. *)
Theorem UnknownConfigFileVersion_message_injective (env : Env)
    (s1 s2 : string) :
  UnknownConfigFileVersion_message env (PyStr s1)
    = UnknownConfigFileVersion_message env (PyStr s2) <-> s1 = s2.
Proof.
  split; [| now intros ->].
  unfold UnknownConfigFileVersion_message. cbn [py_str]. intros H.
  apply append_cancel_l in H. now apply append_cancel_r in H.
Qed.
